(** * balsam.api.query: the lazy [Query] builder and its [Manager]

    A shallow embedding of [src/balsam/api/query.py].  Python objects that the
    code mutates ([Query] instances) live in a store and are handled through
    references; every remote call is appended to a log, so that "issues
    exactly one request" is a statement about that log.  Exceptions are
    explicit: a computation either returns a value or raises, and the store
    keeps whatever was written before the raise. *)

From stdpp Require Import gmap strings list fin_maps.
From Stdlib Require Import ZArith Lia.

Open Scope Z_scope.

(** ** Python values, exceptions, outcomes *)

(** Hashable scalar values found in rows, predicates and unique fields. *)
Inductive pyval :=
| VNone
| VInt (z : Z)
| VStr (s : string).

#[global] Instance pyval_eq_dec : EqDecision pyval.
Proof. solve_decision. Defined.

#[global] Instance pyval_countable : Countable pyval.
Proof.
  refine (inj_countable'
    (fun v => match v with
              | VNone => inl ()
              | VInt z => inr (inl z)
              | VStr s => inr (inr s)
              end)
    (fun c => match c with
              | inl _ => VNone
              | inr (inl z) => VInt z
              | inr (inr s) => VStr s
              end) _).
  by intros [].
Defined.

(** A raw record: a [dict] from field names to values.  Keyword arguments
    ([**kwargs]) have the same shape. *)
Abbreviation Row := (gmap string pyval).

(** The exceptions the module raises itself, those the interpreter raises on
    its behalf, and [ExternalError] for whatever a collaborator (the remote
    resource, the model class) raises. *)
Inductive exn :=
| TypeError (msg : string)
| AttributeError (msg : string)
| AssertionError (msg : string)
| IndexError (msg : string)
| ValueError (msg : string)
| KeyError (key : pyval)
| NotImplementedError
| SystemError (msg : string)
| DoesNotExist (model : string)
| MultipleObjectsReturned (model : string) (nobj : nat)
| ExternalError (msg : string).

Inductive outcome (A : Type) :=
| Return (a : A)
| Raise (e : exn).
Arguments Return {A} a.
Arguments Raise {A} e.

Definition is_None {A} (o : option A) : bool :=
  match o with None => true | Some _ => false end.

(** [_order_fields] starts as a list ([[]]) and is replaced by a tuple in
    [order_by]; the two differ in what methods they offer. *)
Inductive pyseq :=
| PyList (items : list string)
| PyTuple (items : list string).

Definition seq_items (s : pyseq) : list string :=
  match s with PyList l | PyTuple l => l end.

(** [s.copy()]: lists have it, tuples do not. *)
Definition seq_copy (s : pyseq) : outcome pyseq :=
  match s with
  | PyList l => Return (PyList l)
  | PyTuple _ => Raise (AttributeError "'tuple' object has no attribute 'copy'")
  end.

(** [stop - start] on values that are an [int] or [None]. *)
Definition py_sub (stop start : option Z) : outcome Z :=
  match stop, start with
  | Some b, Some a => Return (b - a)
  | Some _, None =>
      Raise (TypeError "unsupported operand type(s) for -: 'int' and 'NoneType'")
  | None, Some _ =>
      Raise (TypeError "unsupported operand type(s) for -: 'NoneType' and 'int'")
  | None, None =>
      Raise (TypeError "unsupported operand type(s) for -: 'NoneType' and 'NoneType'")
  end.

(** Subscripts: [q[k]] with [k] an [int], a [slice], or anything else (of
    which only the type name matters). *)
Record pyslice := { start : option Z; stop : option Z; step : option Z }.

Inductive index :=
| KInt (k : Z)
| KSlice (s : pyslice)
| KOther (type_name : string).

(** Truthiness of [k.step]: [None] and [0] are false. *)
Definition truthy (o : option Z) : bool :=
  match o with None => false | Some z => negb (z =? 0) end.

(** The guard of [__getitem__]'s [assert]. *)
Definition non_negative (o : option Z) : bool :=
  match o with None => true | Some z => 0 <=? z end.

(** *** Indexing and slicing a Python list *)

(** [l[k]] for [k >= 0]. *)
Definition list_item {A} (l : list A) (k : Z) : outcome A :=
  match l !! Z.to_nat k with
  | Some x => Return x
  | None => Raise (IndexError "list index out of range")
  end.

(** [slice.indices(len)]: the normalised (start, stop, step). *)
Definition slice_indices (len : Z) (s : pyslice) : outcome (Z * Z * Z) :=
  let stp := default 1 (step s) in
  if stp =? 0 then Raise (ValueError "slice step cannot be zero")
  else
    let lower := if stp <? 0 then -1 else 0 in
    let upper := if stp <? 0 then len - 1 else len in
    let clamp i := if i <? 0 then Z.max (i + len) lower else Z.min i upper in
    let st := match start s with
              | None => if stp <? 0 then upper else lower
              | Some i => clamp i
              end in
    let sp := match stop s with
              | None => if stp <? 0 then lower else upper
              | Some i => clamp i
              end in
    Return (st, sp, stp).

Definition slice_length (st sp stp : Z) : nat :=
  if stp <? 0
  then (if sp <? st then Z.to_nat ((st - sp - 1) / (- stp) + 1) else 0%nat)
  else (if st <? sp then Z.to_nat ((sp - st - 1) / stp + 1) else 0%nat).

(** [l[start:stop:step]]. *)
Definition list_slice {A} (l : list A) (s : pyslice) : outcome (list A) :=
  match slice_indices (Z.of_nat (length l)) s with
  | Raise e => Raise e
  | Return (st, sp, stp) =>
      Return (omap (fun j => l !! Z.to_nat (st + Z.of_nat j * stp))
                   (seq 0 (slice_length st sp stp)))
  end.

(** Binding keyword arguments against a signature: a keyword the callee does
    not declare is a [TypeError] at the call. *)
Definition bind_keywords (callee : string) (params given : list string) : outcome unit :=
  match List.find (fun k => negb (bool_decide (k ∈ params))) given with
  | Some k =>
      Raise (TypeError (callee +:+ " got an unexpected keyword argument '" +:+ k +:+ "'"))
  | None => Return tt
  end.

(** A reference to a stored object is its position in the store. *)
Abbreviation ref := nat.

(** Reading [obj.attr] when neither the instance nor its class has the
    attribute. *)
Definition no_attribute {A} (class_name attr : string) : outcome A :=
  Raise (AttributeError ("'" +:+ class_name +:+ "' object has no attribute '"
                         +:+ attr +:+ "'")).

(** ** Computations over a store: state that survives a raise *)

Definition M (W A : Type) : Type := W -> outcome A * W.

Definition ret {W A} (a : A) : M W A := fun w => (Return a, w).
Definition raise {W A} (e : exn) : M W A := fun w => (Raise e, w).
Definition bind {W A B} (c : M W A) (k : A -> M W B) : M W B :=
  fun w => match c w with
           | (Return a, w') => k a w'
           | (Raise e, w') => (Raise e, w')
           end.
Definition lift {W A} (o : outcome A) : M W A := fun w => (o, w).

Declare Scope py_scope.
Delimit Scope py_scope with py.
Notation "x <- c ;; k" := (bind c (fun x => k))
  (at level 100, c at next level, right associativity) : py_scope.
Notation "c ;; k" := (bind c (fun _ => k))
  (at level 100, right associativity) : py_scope.

(** [[f(x) for x in l]] where [f] may raise. *)
Fixpoint map_outcome {A B} (f : A -> outcome B) (l : list A) : outcome (list B) :=
  match l with
  | [] => Return []
  | x :: l' =>
      match f x with
      | Raise e => Raise e
      | Return y =>
          match map_outcome f l' with
          | Raise e => Raise e
          | Return ys => Return (y :: ys)
          end
      end
  end.

(** ** The external collaborators and the objects of the module *)

Section Objects.
Context {Obj : Type}.

(** What the code uses of a Model class: [__name__], [_field_names], the
    [isinstance] test, the validating constructor [model_class] applied to the unpacked row and
    [construct] applied to the unpacked data. *)
Record ModelClass := {
  __name__ : string;
  _field_names : list string;
  isinstance : Obj -> bool;
  call : Row -> outcome Obj;
  construct : Row -> outcome Obj;
}.

(** First positional argument of [list]: [BaseIterable.__iter__] passes the
    class name, [Query.count] passes [self.model_class] itself. *)
Inductive target :=
| TName (name : string)
| TClass (cls : option ModelClass).

(** The arguments of one [_resource.list(...)] call; [None] in an optional
    position the call leaves out. *)
Record list_request := {
  lr_target : target;
  lr_fields : option (gset string);
  lr_filters : Row;
  lr_excludes : Row;
  lr_order_by : option pyseq;
  lr_limit : option Z;
  lr_offset : option Z;
  lr_count_only : option bool;
}.

(** The answer: [results["count"]] and [results["rows"]]. *)
Record list_response := {
  res_count : Z;
  res_rows : list Row;
}.

(** The remote resource handle: stateless, and free to fail. *)
Class RemoteResource := {
  remote_list : list_request -> outcome list_response;
  remote_bulk_create : list Row -> outcome (list Row);
  remote_bulk_update_patch : list Row -> outcome (list Row);
}.

(** What the manager asks of the objects handed to it: [obj.dict()] and
    [getattr(obj, name)]. *)
Class PyObject := {
  dict : Obj -> outcome Row;
  getattr : Obj -> string -> outcome pyval;
}.

Inductive remote_call :=
| CallList (req : list_request)
| CallBulkCreate (data_list : list Row)
| CallBulkUpdatePatch (patch_list : list Row).

Inductive iterable_class :=
| BaseIterable
| ModelIterable.

(** The attributes of a [Query] instance, as [Query.__init__] lays them out. *)
Record Query := {
  model_class : option ModelClass;
  _result_cache : option (list Obj);
  _filters : Row;
  _excludes : Row;
  _order_fields : pyseq;
  _iterable_class : iterable_class;
  _count : option Z;
  _limit : option Z;
  _offset : option Z;
}.

Definition set_result_cache (v : option (list Obj)) (q : Query) : Query :=
  {| model_class := model_class q; _result_cache := v; _filters := _filters q;
     _excludes := _excludes q; _order_fields := _order_fields q;
     _iterable_class := _iterable_class q; _count := _count q;
     _limit := _limit q; _offset := _offset q |}.
Definition set_filters (v : Row) (q : Query) : Query :=
  {| model_class := model_class q; _result_cache := _result_cache q; _filters := v;
     _excludes := _excludes q; _order_fields := _order_fields q;
     _iterable_class := _iterable_class q; _count := _count q;
     _limit := _limit q; _offset := _offset q |}.
Definition set_excludes (v : Row) (q : Query) : Query :=
  {| model_class := model_class q; _result_cache := _result_cache q;
     _filters := _filters q; _excludes := v; _order_fields := _order_fields q;
     _iterable_class := _iterable_class q; _count := _count q;
     _limit := _limit q; _offset := _offset q |}.
Definition set_order_fields (v : pyseq) (q : Query) : Query :=
  {| model_class := model_class q; _result_cache := _result_cache q;
     _filters := _filters q; _excludes := _excludes q; _order_fields := v;
     _iterable_class := _iterable_class q; _count := _count q;
     _limit := _limit q; _offset := _offset q |}.
Definition set_iterable_class (v : iterable_class) (q : Query) : Query :=
  {| model_class := model_class q; _result_cache := _result_cache q;
     _filters := _filters q; _excludes := _excludes q;
     _order_fields := _order_fields q; _iterable_class := v; _count := _count q;
     _limit := _limit q; _offset := _offset q |}.
Definition set_count (v : option Z) (q : Query) : Query :=
  {| model_class := model_class q; _result_cache := _result_cache q;
     _filters := _filters q; _excludes := _excludes q;
     _order_fields := _order_fields q; _iterable_class := _iterable_class q;
     _count := v; _limit := _limit q; _offset := _offset q |}.
Definition set_limit (v : option Z) (q : Query) : Query :=
  {| model_class := model_class q; _result_cache := _result_cache q;
     _filters := _filters q; _excludes := _excludes q;
     _order_fields := _order_fields q; _iterable_class := _iterable_class q;
     _count := _count q; _limit := v; _offset := _offset q |}.
Definition set_offset (v : option Z) (q : Query) : Query :=
  {| model_class := model_class q; _result_cache := _result_cache q;
     _filters := _filters q; _excludes := _excludes q;
     _order_fields := _order_fields q; _iterable_class := _iterable_class q;
     _count := _count q; _limit := _limit q; _offset := v |}.

(** The store of [Query] objects (a reference is a position in [heap]) and
    the log of remote calls, oldest first. *)
Record world := {
  heap : list Query;
  calls : list remote_call;
}.

Definition alloc (q : Query) : M world ref :=
  fun w => (Return (length (heap w)),
            {| heap := heap w ++ [q]; calls := calls w |}).

Definition deref (r : ref) : M world Query :=
  fun w => match heap w !! r with
           | Some q => (Return q, w)
           | None => (Raise (SystemError "dangling reference"), w)
           end.

(** [self.attr = v] *)
Definition assign (r : ref) (f : Query -> Query) : M world unit :=
  fun w => (Return tt, {| heap := alter f r (heap w); calls := calls w |}).

(** A remote call: logged, then answered. *)
Definition remote {A} (c : remote_call) (answer : outcome A) : M world A :=
  fun w => (answer, {| heap := heap w; calls := calls w ++ [c] |}).

End Objects.

Arguments ModelClass : clear implicits.
Arguments target : clear implicits.
Arguments list_request : clear implicits.
Arguments RemoteResource : clear implicits.
Arguments PyObject : clear implicits.
Arguments remote_call : clear implicits.
Arguments Query : clear implicits.
Arguments world : clear implicits.

Open Scope py_scope.

(** ** BaseIterable and ModelIterable *)

(** [BaseIterable.__iter__] and [Query.count] reach for the remote resource
    through [self._resource].  [BaseIterable.__init__] sets [query] and
    nothing else, [Query.__init__] sets the nine attributes of the [Query]
    record, and no class in the file declares [_resource]: on both kinds of
    object the lookup fails, before any argument of the call is evaluated. *)

Module Iterable.
Section Iterable.
Context {Obj : Type}.

Definition class_name (cls : iterable_class) : string :=
  match cls with
  | BaseIterable => "BaseIterable"
  | ModelIterable => "ModelIterable"
  end.

(** A generator object made by [ModelIterable._iter_results]: nothing of its
    body has run yet. *)
Record generator := {
  gen_query : ref;
  gen_rows : list Row;
}.

(** [_iter_results]: [BaseIterable] leaves it unimplemented; in
    [ModelIterable] it is a generator function, so calling it only makes the
    generator. *)
Definition _iter_results (cls : iterable_class) (query : ref) (results : list Row)
  : M (world Obj) generator :=
  match cls with
  | BaseIterable => raise NotImplementedError
  | ModelIterable => ret {| gen_query := query; gen_rows := results |}
  end.

(** [BaseIterable.__iter__]: [self._resource] is looked up first; the list
    request and the assignment to [query._count] come after it. *)
Definition __iter__ (cls : iterable_class) (query : ref) : M (world Obj) generator :=
  resource <- lift (no_attribute (class_name cls) "_resource") ;;
  q <- deref query ;;
  mc <- match model_class q with
        | Some mc => ret mc
        | None => raise (AttributeError "'NoneType' object has no attribute '__name__'")
        end ;;
  let req := {| lr_target := TName (__name__ mc);
                lr_fields := Some ({["pk"]} ∪ list_to_set (_field_names mc));
                lr_filters := _filters q;
                lr_excludes := _excludes q;
                lr_order_by := Some (_order_fields q);
                lr_limit := _limit q;
                lr_offset := _offset q;
                lr_count_only := None |} in
  results <- remote (CallList req) (remote_list (RemoteResource := resource) req) ;;
  assign query (set_count (Some (res_count results))) ;;
  _iter_results cls query (res_rows results).

(** Running a generator to exhaustion ([list(gen)]): one
    [self.query.model_class] call per row, in order. *)
Definition exhaust (g : generator) : M (world Obj) (list Obj) :=
  match gen_rows g with
  | [] => ret []
  | _ :: _ =>
      q <- deref (gen_query g) ;;
      match model_class q with
      | Some mc => lift (map_outcome (call mc) (gen_rows g))
      | None => raise (TypeError "'NoneType' object is not callable")
      end
  end.

End Iterable.
End Iterable.

(** ** Query *)

(** What [filter], [exclude] and [order_by] hand back: the clone, or the
    exception object of the [return AttributeError(...)] statement. *)
Inductive narrowed :=
| Clone (clone : ref)
| ErrorValue (e : exn).

(** What [__getitem__] hands back: one element, a still-lazy clone, or a
    plain list. *)
Inductive subscript {Obj : Type} :=
| Item (o : Obj)
| Lazy (clone : ref)
| Items (l : list Obj).
Arguments subscript : clear implicits.

(** An entry of the list that [__repr__] formats. *)
Inductive shown {Obj : Type} :=
| Shown (o : Obj)
| Truncated.
Arguments shown : clear implicits.

Definition REPR_OUTPUT_SIZE : Z := 20.

Module Query.
Section Query.
Context {Obj : Type}.

Definition __init__ (model_class : option (ModelClass Obj)) : M (world Obj) ref :=
  alloc {| model_class := model_class;
           _result_cache := None;
           _filters := ∅;
           _excludes := ∅;
           _order_fields := PyList [];
           _iterable_class := ModelIterable;
           _count := None;
           _limit := None;
           _offset := None |}.

(** The descriptor hook [__get__(self, instance, cls=None)], the owner
    class given by its [__name__]: reading the attribute through an instance
    raises, through the class it gives [None].  With [cls] left out the
    message itself cannot be built. *)
Definition __get__ (instance : option Obj) (cls : option string) : outcome unit :=
  match instance with
  | None => Return tt
  | Some _ =>
      match cls with
      | Some cls_name =>
          Raise (AttributeError ("Query isn't accessible via " +:+ cls_name
                                 +:+ " instances"))
      | None => Raise (AttributeError "'NoneType' object has no attribute '__name__'")
      end
  end.

Definition is_sliced (q : Query Obj) : bool :=
  is_None (_limit q) || is_None (_offset q).

Definition _clone (self : ref) : M (world Obj) ref :=
  q <- deref self ;;
  clone <- __init__ (model_class q) ;;
  assign clone (set_filters (_filters q)) ;;
  assign clone (set_excludes (_excludes q)) ;;
  order <- lift (seq_copy (_order_fields q)) ;;
  assign clone (set_order_fields order) ;;
  assign clone (set_iterable_class (_iterable_class q)) ;;
  assign clone (set_limit (_limit q)) ;;
  assign clone (set_offset (_offset q)) ;;
  ret clone.

Definition _set_limits (self : ref) (start stop : option Z) : M (world Obj) unit :=
  assign self (set_offset start) ;;
  d <- lift (py_sub stop start) ;;
  assign self (set_limit (Some d)).

Definition _query_iterator (self : ref) : M (world Obj) Iterable.generator :=
  q <- deref self ;;
  Iterable.__iter__ (_iterable_class q) self.

Definition _fetch_cache (self : ref) : M (world Obj) unit :=
  q <- deref self ;;
  if is_None (_result_cache q) then
    g <- _query_iterator self ;;
    objs <- Iterable.exhaust g ;;
    assign self (set_result_cache (Some objs))
  else ret tt.

(** [self._result_cache] read where the code takes it to be a list. *)
Definition cache (self : ref) : M (world Obj) (list Obj) :=
  q <- deref self ;;
  match _result_cache q with
  | Some l => ret l
  | None => raise (TypeError "'NoneType' object is not subscriptable")
  end.

(** [__iter__], run to the end: this is [list(self)]. *)
Definition __iter__ (self : ref) : M (world Obj) (list Obj) :=
  _fetch_cache self ;;
  cache self.

Definition __len__ (self : ref) : M (world Obj) nat :=
  _fetch_cache self ;;
  l <- cache self ;;
  ret (length l).

Definition __bool__ (self : ref) : M (world Obj) bool :=
  _fetch_cache self ;;
  l <- cache self ;;
  ret (negb (bool_decide (length l = 0%nat))).

Definition __getitem__ (self : ref) (k : index) : M (world Obj) (subscript Obj) :=
  match k with
  | KOther type_name =>
      raise (TypeError ("Query indices must be integers or slices, not "
                        +:+ type_name +:+ "."))
  | KInt i =>
      if 0 <=? i then
        q <- deref self ;;
        match _result_cache q with
        | Some l => x <- lift (list_item l i) ;; ret (Item x)
        | None =>
            clone <- _clone self ;;
            _set_limits clone (Some i) (Some (i + 1)) ;;
            _fetch_cache clone ;;
            l <- cache clone ;;
            x <- lift (list_item l 0) ;;
            ret (Item x)
        end
      else raise (AssertionError "Negative indexing is not supported.")
  | KSlice s =>
      if non_negative (start s) && non_negative (stop s) then
        q <- deref self ;;
        match _result_cache q with
        | Some l => r <- lift (list_slice l s) ;; ret (Items r)
        | None =>
            clone <- _clone self ;;
            _set_limits clone (start s) (stop s) ;;
            if truthy (step s) then
              l <- __iter__ clone ;;
              r <- lift (list_slice l {| start := None; stop := None; step := step s |}) ;;
              ret (Items r)
            else ret (Lazy clone)
        end
      else raise (AssertionError "Negative indexing is not supported.")
  end.

(** The list that [__repr__] formats into its result. *)
Definition __repr__ (self : ref) : M (world Obj) (list (shown Obj)) :=
  got <- __getitem__ self
           (KSlice {| start := None; stop := Some (REPR_OUTPUT_SIZE + 1); step := None |}) ;;
  data <- match got with
          | Lazy clone => __iter__ clone
          | Items l => ret l
          | Item _ => raise (TypeError "object is not iterable")
          end ;;
  if REPR_OUTPUT_SIZE <? Z.of_nat (length data)
  then ret ((Shown <$> removelast data) ++ [Truncated])
  else ret (Shown <$> data).

Definition filter (self : ref) (kwargs : Row) : M (world Obj) narrowed :=
  q <- deref self ;;
  if is_sliced q then ret (ErrorValue (AttributeError "Cannot filter a sliced Query"))
  else
    clone <- _clone self ;;
    c <- deref clone ;;
    assign clone (set_filters (kwargs ∪ _filters c)) ;;
    ret (Clone clone).

Definition exclude (self : ref) (kwargs : Row) : M (world Obj) narrowed :=
  q <- deref self ;;
  if is_sliced q then ret (ErrorValue (AttributeError "Cannot filter a sliced Query"))
  else
    clone <- _clone self ;;
    c <- deref clone ;;
    assign clone (set_excludes (kwargs ∪ _excludes c)) ;;
    ret (Clone clone).

Definition order_by (self : ref) (fields : list string) : M (world Obj) narrowed :=
  q <- deref self ;;
  if is_sliced q then ret (ErrorValue (AttributeError "Cannot re-order a sliced Query"))
  else
    clone <- _clone self ;;
    assign clone (set_order_fields (PyTuple fields)) ;;
    ret (Clone clone).

(** [list(clone)] on what [filter] handed back. *)
Definition list_of (v : narrowed) : M (world Obj) (list Obj) :=
  match v with
  | Clone clone => __iter__ clone
  | ErrorValue _ => raise (TypeError "'AttributeError' object is not iterable")
  end.

Definition get (self : ref) (kwargs : Row) : M (world Obj) Obj :=
  clone <- filter self kwargs ;;
  results <- list_of clone ;;
  match results with
  | [x] => ret x
  | [] =>
      q <- deref self ;;
      match model_class q with
      | Some mc => raise (DoesNotExist (__name__ mc))
      | None => raise (AttributeError "'NoneType' object has no attribute 'DoesNotExist'")
      end
  | _ =>
      q <- deref self ;;
      match model_class q with
      | Some mc => raise (MultipleObjectsReturned (__name__ mc) (length results))
      | None =>
          raise (AttributeError
                   "'NoneType' object has no attribute 'MultipleObjectsReturned'")
      end
  end.

Definition count (self : ref) : M (world Obj) Z :=
  q <- deref self ;;
  match _count q with
  | Some n => ret n
  | None =>
      resource <- lift (no_attribute "Query" "_resource") ;;
      let req := {| lr_target := TClass (model_class q);
                    lr_fields := None;
                    lr_filters := _filters q;
                    lr_excludes := _excludes q;
                    lr_order_by := None;
                    lr_limit := Some 0;
                    lr_offset := _offset q;
                    lr_count_only := Some true |} in
      results <- remote (CallList req) (remote_list (RemoteResource := resource) req) ;;
      assign self (set_count (Some (res_count results))) ;;
      ret (res_count results)
  end.

End Query.
End Query.

(** ** Manager *)

Section ManagerObject.
Context {Obj : Type}.

Record Manager := {
  _resource : RemoteResource Obj;
  _model : ModelClass Obj;
  _unique_field : string;
}.

End ManagerObject.
Arguments Manager : clear implicits.

Module Manager.
Section Manager.
Context {Obj : Type} `{!PyObject Obj}.

(** [Manager(client_resource, model_class, unique_field="pk")] *)
Definition __init__ (client_resource : RemoteResource Obj) (model_class : ModelClass Obj)
    (unique_field : option string) : Manager Obj :=
  {| _resource := client_resource;
     _model := model_class;
     _unique_field := default "pk" unique_field |}.

(** [Query(manager=self)]: the call is checked against the signature of
    [Query.__init__(self, model_class=None)] before its body runs. *)
Definition new_query (self : Manager Obj) : M (world Obj) ref :=
  lift (bind_keywords "__init__()" ["model_class"] ["manager"]) ;;
  Query.__init__ None.

Definition all (self : Manager Obj) : M (world Obj) ref :=
  new_query self.

Definition filter (self : Manager Obj) (kwargs : Row) : M (world Obj) narrowed :=
  q <- new_query self ;;
  Query.filter q kwargs.

Definition get (self : Manager Obj) (kwargs : Row) : M (world Obj) Obj :=
  q <- new_query self ;;
  Query.get q kwargs.

Definition to_dict (self : Manager Obj) (instance : Obj) : outcome Row :=
  dict instance.

Definition from_dict (self : Manager Obj) (data : Row) : outcome Obj :=
  construct (_model self) data.

(** The argument of [bulk_create]: a list, or some other object. *)
Inductive instances_arg :=
| AList (l : list Obj)
| ANotList (o : Obj).

(** The statements of [bulk_create]. *)
Definition bulk_create_body (self : Manager Obj) (instances : instances_arg)
  : M (world Obj) (list Obj) :=
  match instances with
  | ANotList _ =>
      raise (TypeError ("instances must be a list of " +:+ __name__ (_model self)
                        +:+ " instances"))
  | AList l =>
      if forallb (isinstance (_model self)) l then
        data_list <- lift (map_outcome (to_dict self) l) ;;
        response_data <- remote (CallBulkCreate data_list)
                           (remote_bulk_create (RemoteResource := _resource self) data_list) ;;
        lift (map_outcome (from_dict self) response_data)
      else
        raise (AssertionError ("bulk_create requires all items to be instances of "
                               +:+ __name__ (_model self)))
  end.

(** [bulk_create] as the caller sees it: the outcome, the content of the
    caller's [instances] after the call, and the world.  The statements read
    [instances] and its items and assign to neither. *)
Definition bulk_create (self : Manager Obj) (instances : instances_arg) (w : world Obj)
  : outcome (list Obj) * instances_arg * world Obj :=
  match bulk_create_body self instances w with
  | (result, w') => (result, instances, w')
  end.

(** [{key: d[key] for key in update_fields}] *)
Fixpoint patch_of (d : Row) (update_fields : list string) (acc : Row) : outcome Row :=
  match update_fields with
  | [] => Return acc
  | key :: rest =>
      match d !! key with
      | Some v => patch_of d rest (<[key := v]> acc)
      | None => Raise (KeyError (VStr key))
      end
  end.

(** [{item[self._unique_field]: item for item in response_data}] *)
Fixpoint response_map_of (unique_field : string) (response_data : list Row)
    (acc : gmap pyval Row) : outcome (gmap pyval Row) :=
  match response_data with
  | [] => Return acc
  | item :: rest =>
      match item !! unique_field with
      | Some pk => response_map_of unique_field rest (<[pk := item]> acc)
      | None => Raise (KeyError (VStr unique_field))
      end
  end.

(** The [for i, obj in enumerate(instances)] loop from position [i] on, with
    at most [n] iterations; the result carries the list as the loop left it. *)
Fixpoint replace_from (self : Manager Obj) (response_map : gmap pyval Row)
    (n i : nat) (instances : list Obj) : outcome unit * list Obj :=
  match n with
  | O => (Return tt, instances)
  | S n' =>
      match instances !! i with
      | None => (Return tt, instances)
      | Some obj =>
          match getattr obj (_unique_field self) with
          | Raise e => (Raise e, instances)
          | Return pk =>
              match response_map !! pk with
              | None => (Raise (KeyError pk), instances)
              | Some item =>
                  match from_dict self item with
                  | Raise e => (Raise e, instances)
                  | Return updated_instance =>
                      replace_from self response_map n' (S i)
                        (<[i := updated_instance]> instances)
                  end
              end
          end
      end
  end.

(** Everything of [bulk_update] before the loop. *)
Definition bulk_update_exchange (self : Manager Obj) (instances : list Obj)
    (update_fields : list string) : M (world Obj) (gmap pyval Row) :=
  data_list <- lift (map_outcome (to_dict self) instances) ;;
  patch_list <- lift (map_outcome (fun d => patch_of d update_fields ∅) data_list) ;;
  response_data <- remote (CallBulkUpdatePatch patch_list)
                     (remote_bulk_update_patch (RemoteResource := _resource self) patch_list) ;;
  lift (response_map_of (_unique_field self) response_data ∅).

(** [bulk_update]: the outcome ([Return tt] is Python's [None]), the content
    of the caller's [instances] list after the call, and the world. *)
Definition bulk_update (self : Manager Obj) (instances : list Obj)
    (update_fields : list string) (w : world Obj)
  : outcome unit * list Obj * world Obj :=
  match bulk_update_exchange self instances update_fields w with
  | (Raise e, w') => (Raise e, instances, w')
  | (Return response_map, w') =>
      (replace_from self response_map (length instances) 0 instances, w')
  end.

End Manager.
End Manager.

(** ** Derived notions used in the statements *)

Section Requests.
Context {Obj : Type}.

(** The attributes [_clone] gives a new object made from [q]: everything but
    the result cache and the cached count, which [Query.__init__] leaves
    empty. *)
Definition cloned (q : Query Obj) : Query Obj :=
  {| model_class := model_class q; _result_cache := None; _filters := _filters q;
     _excludes := _excludes q; _order_fields := _order_fields q;
     _iterable_class := _iterable_class q; _count := None;
     _limit := _limit q; _offset := _offset q |}.

(** A computation that leaves the log of remote calls as it found it. *)
Definition quiet {A} (c : M (world Obj) A) : Prop :=
  forall w, calls (c w).2 = calls w.

End Requests.

(** ** A concrete model class and a stub resource, for closed evaluations *)

Module Example.

(** An object with a class name and an attribute dictionary. *)
Record job := { job_class : string; job_attrs : Row }.

Definition job_object : PyObject job :=
  {| dict o := Return (job_attrs o);
     getattr o name :=
       match job_attrs o !! name with
       | Some v => Return v
       | None => Raise (AttributeError ("object has no attribute '" +:+ name +:+ "'"))
       end |}.

Definition Job : ModelClass job :=
  {| __name__ := "Job";
     _field_names := ["name"; "state"];
     isinstance o := bool_decide (job_class o = "Job");
     call row := Return {| job_class := "Job"; job_attrs := row |};
     construct data := Return {| job_class := "Job"; job_attrs := data |} |}.

Definition record (pk : Z) (name state : string) : Row :=
  <["pk" := VInt pk]> (<["name" := VStr name]> (<["state" := VStr state]> ∅)).

Definition job_of (r : Row) : job := {| job_class := "Job"; job_attrs := r |}.

Definition table : list Row :=
  [record 1 "a" "READY"; record 2 "b" "READY"; record 3 "c" "RUNNING";
   record 4 "d" "RUNNING"; record 5 "e" "DONE"].

(** The stub given to the example manager.  It serves [table] to list
    requests ([offset] rows skipped, at most [limit] rows returned, [count]
    the number of rows from [offset] on); its bulk-create echoes the records
    it is sent; its bulk-update answers with two fixed records in descending
    [pk] order. *)
Definition skip (offset : option Z) (l : list Row) : list Row :=
  drop (Z.to_nat (default 0 offset)) l.

Definition cap (limit : option Z) (l : list Row) : list Row :=
  match limit with
  | Some n => take (Z.to_nat n) l
  | None => l
  end.

Definition stub : RemoteResource job :=
  {| remote_list req :=
       Return {| res_count := Z.of_nat (length (skip (lr_offset req) table));
                 res_rows := cap (lr_limit req) (skip (lr_offset req) table) |};
     remote_bulk_create data_list := Return data_list;
     remote_bulk_update_patch patch_list :=
       Return [record 2 "b2" "DONE"; record 1 "a1" "DONE"] |}.

Definition manager : Manager job := Manager.__init__ stub Job None.

Definition empty_world : world job := {| heap := []; calls := [] |}.

(** The attributes of a fresh [Query(Job)]. *)
Definition fresh : Query job :=
  {| model_class := Some Job; _result_cache := None; _filters := ∅; _excludes := ∅;
     _order_fields := PyList []; _iterable_class := ModelIterable; _count := None;
     _limit := None; _offset := None |}.

(** A world holding one query object, at reference [0]. *)
Definition one (q : Query job) : world job := {| heap := [q]; calls := [] |}.

Definition a : job := job_of (record 1 "a" "READY").
Definition b : job := job_of (record 2 "b" "READY").
Definition stranger : job := {| job_class := "Site"; job_attrs := ∅ |}.

(** [Query(Job)[2:5]]: offset 2, limit 3. *)
Definition sliced : Query job := set_limit (Some 3) (set_offset (Some 2) fresh).

(** [Query(Job)[2:5].order_by("name")], built through the public methods
    from the empty world. *)
Definition ordered_program : M (world job) ref :=
  q <- Query.__init__ (Some Job) ;;
  s <- Query.__getitem__ q
         (KSlice {| start := Some 2; stop := Some 5; step := None |}) ;;
  match s with
  | Lazy c =>
      n <- Query.order_by c ["name"] ;;
      match n with
      | Clone o => ret o
      | ErrorValue e => raise e
      end
  | _ => raise NotImplementedError
  end.

Definition ordered_world : world job := (ordered_program empty_world).2.

Definition ordered : Query job := set_order_fields (PyTuple ["name"]) sliced.

(** A query that has already been counted. *)
Definition counted : Query job := set_count (Some 5) fresh.

Definition by_name : Row := {["name" := VStr "a"]}.

Definition name_patch (name : string) : Row := {["name" := VStr name]}.

Definition updated_a : Row := record 1 "a1" "DONE".
Definition updated_b : Row := record 2 "b2" "DONE".

Definition update_response_map : gmap pyval Row :=
  <[VInt 1 := updated_a]> (<[VInt 2 := updated_b]> ∅).

(** A query whose five rows are already in its cache. *)
Definition cached : Query job :=
  set_result_cache (Some (job_of <$> table)) (set_count (Some 5) fresh).

(** Objects whose [dict()] fails when they have no attributes. *)
Definition brittle_object : PyObject job :=
  {| dict o :=
       if bool_decide (job_attrs o = ∅) then Raise (ExternalError "nothing to serialise")
       else Return (job_attrs o);
     getattr o name :=
       match job_attrs o !! name with
       | Some v => Return v
       | None => Raise (AttributeError ("object has no attribute '" +:+ name +:+ "'"))
       end |}.

Definition hollow : job := {| job_class := "Job"; job_attrs := ∅ |}.

(** A resource whose bulk-update answer leaves out the record with [pk = 2]. *)
Definition partial_stub : RemoteResource job :=
  {| remote_list req := Return {| res_count := 0; res_rows := [] |};
     remote_bulk_create data_list := Return data_list;
     remote_bulk_update_patch patch_list := Return [updated_a] |}.

Definition partial_manager : Manager job := Manager.__init__ partial_stub Job None.

End Example.

(** ** Properties of Query *)

Section Properties.
Context {Obj : Type}.
Implicit Types (w : world Obj) (q : Query Obj) (self : ref).

Lemma deref_some w self q :
  heap w !! self = Some q -> deref self w = (Return q, w).
Proof. intros H. unfold deref. by rewrite H. Qed.

Lemma alter_fresh (l : list (Query Obj)) x f :
  alter f (length l) (l ++ [x]) = l ++ [f x].
Proof.
  induction l as [|y l IH]; simpl; [done|].
  f_equal. exact IH.
Qed.

Lemma lookup_fresh (l : list (Query Obj)) x : (l ++ [x]) !! length l = Some x.
Proof. induction l; simpl; auto. Qed.

Lemma lookup_old (l : list (Query Obj)) x self q :
  l !! self = Some q -> (l ++ [x]) !! self = Some q.
Proof. intros H. by apply lookup_app_l_Some. Qed.

Lemma clone_of_list w self q fs :
  heap w !! self = Some q -> _order_fields q = PyList fs ->
  Query._clone self w
  = (Return (length (heap w)), {| heap := heap w ++ [cloned q]; calls := calls w |}).
Proof.
  intros H Ho. unfold Query._clone, Query.__init__, bind.
  rewrite (deref_some _ _ _ H). unfold alloc, assign, lift, ret. simpl.
  rewrite Ho. simpl. rewrite !alter_fresh. unfold cloned. rewrite Ho. reflexivity.
Qed.

Lemma clone_of_tuple w self q fs :
  heap w !! self = Some q -> _order_fields q = PyTuple fs ->
  exists junk,
    Query._clone self w
    = (Raise (AttributeError "'tuple' object has no attribute 'copy'"),
       {| heap := heap w ++ [junk]; calls := calls w |}).
Proof.
  intros H Ho. unfold Query._clone, Query.__init__, bind.
  rewrite (deref_some _ _ _ H). unfold alloc, assign, lift, ret. simpl.
  rewrite Ho. simpl. rewrite !alter_fresh. eauto.
Qed.

Lemma set_limits_both w c a b :
  Query._set_limits c (Some a) (Some b) w
  = (Return tt,
     {| heap := alter (set_limit (Some (b - a))) c (alter (set_offset (Some a)) c (heap w));
        calls := calls w |}).
Proof. reflexivity. Qed.

Lemma set_limits_absent w c st sp :
  st = None \/ sp = None ->
  exists msg,
    Query._set_limits c st sp w
    = (Raise (TypeError msg),
       {| heap := alter (set_offset st) c (heap w); calls := calls w |}).
Proof.
  intros H. unfold Query._set_limits, bind, assign, lift. simpl.
  destruct st, sp; simpl; destruct H; try discriminate; eauto.
Qed.

Lemma fetch_cached w self q l :
  heap w !! self = Some q -> _result_cache q = Some l ->
  Query._fetch_cache self w = (Return tt, w).
Proof.
  intros H Hc. unfold Query._fetch_cache, bind. rewrite (deref_some _ _ _ H).
  by rewrite Hc.
Qed.

Lemma alter_lookup (l : list (Query Obj)) self q f :
  l !! self = Some q -> alter f self l !! self = Some (f q).
Proof. intros H. rewrite list_lookup_alter_eq. by rewrite H. Qed.

Lemma fetch_unbound w self q :
  heap w !! self = Some q -> _result_cache q = None ->
  Query._fetch_cache self w
  = (no_attribute (Iterable.class_name (_iterable_class q)) "_resource", w).
Proof.
  intros H Hc. unfold Query._fetch_cache, bind. rewrite (deref_some _ _ _ H), Hc. simpl.
  unfold Query._query_iterator, bind. by rewrite (deref_some _ _ _ H).
Qed.

Lemma fetch_keeps_world w self : (Query._fetch_cache self w).2 = w.
Proof.
  unfold Query._fetch_cache, bind, deref.
  destruct (heap w !! self) as [q|] eqn:H; [|done].
  destruct (_result_cache q) eqn:Hc; [done|]. simpl.
  unfold Query._query_iterator, bind, deref. by rewrite H.
Qed.

Lemma is_sliced_false q a b :
  _limit q = Some a -> _offset q = Some b -> Query.is_sliced q = false.
Proof. intros H1 H2. unfold Query.is_sliced. by rewrite H1, H2. Qed.

Lemma is_sliced_true q :
  _limit q = None \/ _offset q = None -> Query.is_sliced q = true.
Proof.
  intros [H|H]; unfold Query.is_sliced; rewrite H; simpl; [done|].
  by destruct (_limit q).
Qed.

Lemma filter_clone w self q a b fs kwargs :
  heap w !! self = Some q ->
  _limit q = Some a -> _offset q = Some b -> _order_fields q = PyList fs ->
  Query.filter self kwargs w
  = (Return (Clone (length (heap w))),
     {| heap := heap w ++ [set_filters (kwargs ∪ _filters q) (cloned q)];
        calls := calls w |}).
Proof.
  intros H Hl Ho Hf. unfold Query.filter, bind.
  rewrite (deref_some _ _ _ H), (is_sliced_false _ _ _ Hl Ho).
  rewrite (clone_of_list _ _ _ _ H Hf).
  unfold deref, assign, ret. simpl. rewrite lookup_fresh. simpl.
  rewrite alter_fresh. reflexivity.
Qed.

Lemma exclude_clone w self q a b fs kwargs :
  heap w !! self = Some q ->
  _limit q = Some a -> _offset q = Some b -> _order_fields q = PyList fs ->
  Query.exclude self kwargs w
  = (Return (Clone (length (heap w))),
     {| heap := heap w ++ [set_excludes (kwargs ∪ _excludes q) (cloned q)];
        calls := calls w |}).
Proof.
  intros H Hl Ho Hf. unfold Query.exclude, bind.
  rewrite (deref_some _ _ _ H), (is_sliced_false _ _ _ Hl Ho).
  rewrite (clone_of_list _ _ _ _ H Hf).
  unfold deref, assign, ret. simpl. rewrite lookup_fresh. simpl.
  rewrite alter_fresh. reflexivity.
Qed.

Lemma order_by_clone w self q a b fs fields :
  heap w !! self = Some q ->
  _limit q = Some a -> _offset q = Some b -> _order_fields q = PyList fs ->
  Query.order_by self fields w
  = (Return (Clone (length (heap w))),
     {| heap := heap w ++ [set_order_fields (PyTuple fields) (cloned q)];
        calls := calls w |}).
Proof.
  intros H Hl Ho Hf. unfold Query.order_by, bind.
  rewrite (deref_some _ _ _ H), (is_sliced_false _ _ _ Hl Ho).
  rewrite (clone_of_list _ _ _ _ H Hf).
  unfold assign, ret. simpl. rewrite alter_fresh. reflexivity.
Qed.

(** C1.  The guard in front of [filter], [exclude] and [order_by] is the
    wrong way round, and its error is handed back as a value.  On a query
    whose limit and offset are both set, each of the three operations returns
    a new clone; on a query that lacks a limit or an offset, each returns an
    [AttributeError] object as its ordinary result and leaves the world as it
    was. *)
Theorem narrowing_guard_is_inverted w self q kwargs fields :
  heap w !! self = Some q ->
  (forall a b fs,
     _limit q = Some a -> _offset q = Some b -> _order_fields q = PyList fs ->
     (Query.filter self kwargs w).1 = Return (Clone (length (heap w)))
     /\ (Query.exclude self kwargs w).1 = Return (Clone (length (heap w)))
     /\ (Query.order_by self fields w).1 = Return (Clone (length (heap w))))
  /\ (_limit q = None \/ _offset q = None ->
      Query.filter self kwargs w
      = (Return (ErrorValue (AttributeError "Cannot filter a sliced Query")), w)
      /\ Query.exclude self kwargs w
         = (Return (ErrorValue (AttributeError "Cannot filter a sliced Query")), w)
      /\ Query.order_by self fields w
         = (Return (ErrorValue (AttributeError "Cannot re-order a sliced Query")), w)).
Proof.
  intros H. split.
  - intros a b fs Hl Ho Hf.
    rewrite (filter_clone _ _ _ _ _ _ _ H Hl Ho Hf),
            (exclude_clone _ _ _ _ _ _ _ H Hl Ho Hf),
            (order_by_clone _ _ _ _ _ _ _ H Hl Ho Hf). auto.
  - intros Hs. apply is_sliced_true in Hs.
    unfold Query.filter, Query.exclude, Query.order_by, bind.
    rewrite (deref_some _ _ _ H), Hs. auto.
Qed.

(** C3.  [q.filter(p)] never changes [q] and never touches the remote
    resource.  When [q] has both a limit and an offset, the result is a new
    object whose filter map is [q]'s map updated with [p] (the new keys win)
    and whose result cache and cached count are empty.  When [q] lacks a limit
    or an offset, which is the case of every query that was not sliced, no
    clone is made and the result is an [AttributeError] object. *)
Theorem filter_frame_and_merge w self q kwargs :
  heap w !! self = Some q ->
  (* the receiver and the call log are left as they were *)
  (heap (Query.filter self kwargs w).2 !! self = Some q
   /\ calls (Query.filter self kwargs w).2 = calls w)
  (* when the guard lets the call through, the clone merges the predicates *)
  /\ (forall a b fs,
       _limit q = Some a -> _offset q = Some b -> _order_fields q = PyList fs ->
       exists c,
         (Query.filter self kwargs w).1 = Return (Clone (length (heap w)))
         /\ heap (Query.filter self kwargs w).2 !! length (heap w) = Some c
         /\ length (heap w) <> self
         /\ (forall key, _filters c !! key
                         = match kwargs !! key with
                           | Some v => Some v
                           | None => _filters q !! key
                           end)
         /\ _result_cache c = None /\ _count c = None)
  (* on a query that lacks a limit or an offset no clone is made *)
  /\ (_limit q = None \/ _offset q = None ->
      Query.filter self kwargs w
      = (Return (ErrorValue (AttributeError "Cannot filter a sliced Query")), w)).
Proof.
  intros H. split; [|split].
  - unfold Query.filter, bind. rewrite (deref_some _ _ _ H).
    destruct (Query.is_sliced q); [by simpl|].
    destruct (_order_fields q) as [fs|fs] eqn:Hf.
    + rewrite (clone_of_list _ _ _ _ H Hf).
      unfold deref, assign, ret. simpl. rewrite lookup_fresh. simpl.
      split; [|done]. rewrite alter_fresh. by apply lookup_old.
    + destruct (clone_of_tuple _ _ _ _ H Hf) as [junk ->]. simpl.
      split; [|done]. by apply lookup_old.
  - intros a b fs Hl Ho Hf. rewrite (filter_clone _ _ _ _ _ _ _ H Hl Ho Hf). simpl.
    eexists. split; [done|]. split; [apply lookup_fresh|].
    split; [apply lookup_lt_Some in H; lia|].
    split; [|done]. intros key. simpl. rewrite lookup_union.
    destruct (kwargs !! key), (_filters q !! key); done.
  - intros Hs. apply is_sliced_true in Hs.
    unfold Query.filter, bind. by rewrite (deref_some _ _ _ H), Hs.
Qed.

Lemma query_init_unconstrained w (mc : option (ModelClass Obj)) :
  exists q,
    Query.__init__ mc w
    = (Return (length (heap w)), {| heap := heap w ++ [q]; calls := calls w |})
    /\ model_class q = mc /\ _filters q = ∅ /\ _excludes q = ∅
    /\ seq_items (_order_fields q) = [] /\ _limit q = None /\ _offset q = None
    /\ _result_cache q = None /\ _count q = None.
Proof. eexists. split; [reflexivity|]. simpl. repeat split. Qed.

Lemma cache_keeps_world w self : (Query.cache self w).2 = w.
Proof.
  unfold Query.cache, bind, deref. destruct (heap w !! self) as [q|]; [|done].
  by destruct (_result_cache q).
Qed.

Lemma slice_lazy w self q fs a b stp :
  heap w !! self = Some q -> _result_cache q = None -> _order_fields q = PyList fs ->
  0 <= a -> 0 <= b -> truthy stp = false ->
  Query.__getitem__ self (KSlice {| start := Some a; stop := Some b; step := stp |}) w
  = (Return (Lazy (length (heap w))),
     {| heap := heap w ++ [set_limit (Some (b - a)) (set_offset (Some a) (cloned q))];
        calls := calls w |}).
Proof.
  intros H Hc Hf Ha Hb Hs. unfold Query.__getitem__. simpl.
  destruct (Z.leb_spec 0 a); [|lia]. destruct (Z.leb_spec 0 b); [|lia]. simpl.
  unfold bind at 1. rewrite (deref_some _ _ _ H), Hc.
  unfold bind at 1. rewrite (clone_of_list _ _ _ _ H Hf).
  unfold bind at 1. unfold Query._set_limits, bind, assign, lift, ret. simpl.
  rewrite Hs. by rewrite !alter_fresh.
Qed.

Lemma slice_absent_bound w self q fs st sp :
  heap w !! self = Some q -> _result_cache q = None -> _order_fields q = PyList fs ->
  non_negative st = true -> non_negative sp = true ->
  st = None \/ sp = None ->
  exists msg w',
    Query.__getitem__ self (KSlice {| start := st; stop := sp; step := None |}) w
    = (Raise (TypeError msg), w')
    /\ calls w' = calls w.
Proof.
  intros H Hc Hf Ha Hb Habs. unfold Query.__getitem__. simpl. rewrite Ha, Hb. simpl.
  unfold bind at 1. rewrite (deref_some _ _ _ H), Hc.
  unfold bind at 1. rewrite (clone_of_list _ _ _ _ H Hf).
  unfold bind at 1.
  destruct (set_limits_absent {| heap := heap w ++ [cloned q]; calls := calls w |}
              (length (heap w)) st sp Habs) as [msg ->].
  by eexists _, _.
Qed.

(** C4.  Slicing a query that has no result cache.  With both bounds given
    the result is a still-lazy clone with [offset = start] and
    [limit = stop - start], and no request is issued.  With a bound left out
    the call raises [TypeError] from the subtraction in [_set_limits]. *)
Theorem slice_needs_both_bounds w self q fs st sp :
  heap w !! self = Some q -> _result_cache q = None -> _order_fields q = PyList fs ->
  non_negative st = true -> non_negative sp = true ->
  (* both bounds given: a lazy clone, no request *)
  (forall a b, st = Some a -> sp = Some b ->
     exists c,
       Query.__getitem__ self (KSlice {| start := st; stop := sp; step := None |}) w
       = (Return (Lazy (length (heap w))),
          {| heap := heap w ++ [c]; calls := calls w |})
       /\ _offset c = Some a /\ _limit c = Some (b - a) /\ _result_cache c = None)
  (* a bound left out: the subtraction in _set_limits raises *)
  /\ (st = None \/ sp = None ->
      exists msg w',
        Query.__getitem__ self (KSlice {| start := st; stop := sp; step := None |}) w
        = (Raise (TypeError msg), w')
        /\ calls w' = calls w).
Proof.
  intros H Hc Hf Ha Hb. split.
  - intros a b -> ->. simpl in Ha, Hb. apply Z.leb_le in Ha, Hb.
    eexists. rewrite (slice_lazy _ _ _ _ _ _ None H Hc Hf Ha Hb eq_refl).
    split; [reflexivity|]. by simpl.
  - intros Habs. by apply (slice_absent_bound _ _ q fs).
Qed.

Lemma iter_unbound w self q :
  heap w !! self = Some q -> _result_cache q = None ->
  Query.__iter__ self w
  = (no_attribute (Iterable.class_name (_iterable_class q)) "_resource", w).
Proof.
  intros H Hc. unfold Query.__iter__, bind. by rewrite (fetch_unbound _ _ _ H Hc).
Qed.

(** Consuming the lazy clone of [q[a:b]]: the fetch fails on [_resource]. *)
Lemma slice_consumed_raises w self q fs a b :
  heap w !! self = Some q -> _result_cache q = None -> _order_fields q = PyList fs ->
  0 <= a -> 0 <= b ->
  exists w1,
    Query.__getitem__ self (KSlice {| start := Some a; stop := Some b; step := None |}) w
    = (Return (Lazy (length (heap w))), w1)
    /\ (Query.__iter__ (length (heap w)) w1).1
       = no_attribute (Iterable.class_name (_iterable_class q)) "_resource"
    /\ calls (Query.__iter__ (length (heap w)) w1).2 = calls w.
Proof.
  intros H Hc Hf Ha Hb.
  set (c := set_limit (Some (b - a)) (set_offset (Some a) (cloned q))).
  set (w1 := {| heap := heap w ++ [c]; calls := calls w |}).
  exists w1. split; [by apply (slice_lazy _ _ q fs)|].
  by rewrite (iter_unbound w1 (length (heap w)) c (lookup_fresh _ _) eq_refl).
Qed.

(** [__repr__] takes the slice [[:21]], which has no start. *)
Lemma repr_raises w self q fs :
  heap w !! self = Some q -> _result_cache q = None -> _order_fields q = PyList fs ->
  exists msg, (Query.__repr__ self w).1 = Raise (TypeError msg).
Proof.
  intros H Hc Hf. unfold Query.__repr__, bind.
  destruct (slice_absent_bound w self q fs None (Some (REPR_OUTPUT_SIZE + 1))
              H Hc Hf eq_refl eq_refl) as (msg & w' & -> & _); [by left|].
  by exists msg.
Qed.

Lemma index_cached w self q l k :
  heap w !! self = Some q -> _result_cache q = Some l -> 0 <= k ->
  Query.__getitem__ self (KInt k) w
  = (match l !! Z.to_nat k with
     | Some x => Return (Item x)
     | None => Raise (IndexError "list index out of range")
     end, w).
Proof.
  intros H Hc Hk. unfold Query.__getitem__.
  destruct (Z.leb_spec 0 k); [|lia].
  unfold bind at 1. rewrite (deref_some _ _ _ H), Hc.
  unfold bind, lift, ret, list_item. by destruct (l !! Z.to_nat k).
Qed.

Lemma index_unbound w self q fs k :
  heap w !! self = Some q -> _result_cache q = None -> _order_fields q = PyList fs ->
  0 <= k ->
  Query.__getitem__ self (KInt k) w
  = (no_attribute (Iterable.class_name (_iterable_class q)) "_resource",
     {| heap := heap w ++ [set_limit (Some 1) (set_offset (Some k) (cloned q))];
        calls := calls w |}).
Proof.
  intros H Hc Hf Hk. unfold Query.__getitem__.
  destruct (Z.leb_spec 0 k); [|lia].
  unfold bind at 1. rewrite (deref_some _ _ _ H), Hc.
  unfold bind at 1. rewrite (clone_of_list _ _ _ _ H Hf).
  unfold bind at 1. rewrite set_limits_both.
  simpl. rewrite !alter_fresh. replace (k + 1 - k) with 1 by lia.
  unfold bind at 1.
  set (c := set_limit (Some 1) (set_offset (Some k) (cloned q))).
  by rewrite (fetch_unbound {| heap := heap w ++ [c]; calls := calls w |}
                (length (heap w)) c (lookup_fresh _ _) eq_refl).
Qed.

(** C5.  [q[k]] on a query that went through [order_by]: its order fields
    are a tuple, [_clone] asks the tuple for [copy], and the subscript raises
    [AttributeError] before any request is issued. *)
Theorem index_on_ordered_query_raises w self q fs k :
  heap w !! self = Some q -> _result_cache q = None -> _order_fields q = PyTuple fs ->
  0 <= k ->
  exists w',
    Query.__getitem__ self (KInt k) w
    = (Raise (AttributeError "'tuple' object has no attribute 'copy'"), w')
    /\ calls w' = calls w.
Proof.
  intros H Hc Hf Hk. unfold Query.__getitem__.
  destruct (Z.leb_spec 0 k); [|lia].
  unfold bind at 1. rewrite (deref_some _ _ _ H), Hc.
  unfold bind at 1. destruct (clone_of_tuple _ _ _ _ H Hf) as [junk ->].
  by eexists.
Qed.

Lemma get_refused w self q kwargs :
  heap w !! self = Some q -> _limit q = None \/ _offset q = None ->
  Query.get self kwargs w
  = (Raise (TypeError "'AttributeError' object is not iterable"), w).
Proof.
  intros H Hs. apply is_sliced_true in Hs.
  unfold Query.get, bind at 1. unfold Query.filter, bind at 1.
  by rewrite (deref_some _ _ _ H), Hs.
Qed.

Lemma get_unbound w self q a b fs kwargs :
  heap w !! self = Some q ->
  _limit q = Some a -> _offset q = Some b -> _order_fields q = PyList fs ->
  Query.get self kwargs w
  = (no_attribute (Iterable.class_name (_iterable_class q)) "_resource",
     {| heap := heap w ++ [set_filters (kwargs ∪ _filters q) (cloned q)];
        calls := calls w |}).
Proof.
  intros H Hl Ho Hf. unfold Query.get. unfold bind at 1.
  rewrite (filter_clone _ _ _ _ _ _ _ H Hl Ho Hf).
  unfold Query.list_of. unfold bind at 1.
  set (c := set_filters (kwargs ∪ _filters q) (cloned q)).
  by rewrite (iter_unbound {| heap := heap w ++ [c]; calls := calls w |}
                (length (heap w)) c (lookup_fresh _ _) eq_refl).
Qed.

(** C6.  [get] on a query that lacks a limit or an offset: [filter] hands
    back an [AttributeError] object, [list] cannot iterate it, and [get]
    raises [TypeError] without any request. *)
Theorem get_on_unsliced_query_raises_type_error w self q kwargs :
  heap w !! self = Some q -> _limit q = None \/ _offset q = None ->
  (Query.get self kwargs w).1 = Raise (TypeError "'AttributeError' object is not iterable")
  /\ calls (Query.get self kwargs w).2 = calls w.
Proof. intros H Hs. by rewrite (get_refused _ _ _ _ H Hs). Qed.

Lemma count_hit w self q n :
  heap w !! self = Some q -> _count q = Some n ->
  Query.count self w = (Return n, w).
Proof.
  intros H Hn. unfold Query.count, bind. by rewrite (deref_some _ _ _ H), Hn.
Qed.

Lemma count_unbound w self q :
  heap w !! self = Some q -> _count q = None ->
  Query.count self w = (no_attribute "Query" "_resource", w).
Proof.
  intros H Hn. unfold Query.count, bind. by rewrite (deref_some _ _ _ H), Hn.
Qed.

(** C7.  [count] returns a cached count without touching the world.  On a
    miss it evaluates [self._resource] first; a [Query] has no such
    attribute, so the call raises [AttributeError] and ends there: no request
    is built or sent, nothing is cached, the world is as it was. *)
Theorem count_miss_raises_before_any_request w self q :
  heap w !! self = Some q ->
  (forall n, _count q = Some n -> Query.count self w = (Return n, w))
  /\ (_count q = None ->
      Query.count self w
      = (Raise (AttributeError "'Query' object has no attribute '_resource'"), w)).
Proof.
  intros H. split.
  - intros n Hn. by apply (count_hit _ _ q).
  - intros Hn. by rewrite (count_unbound _ _ _ H Hn).
Qed.

(** C10.  On a query without a cached count, the outcome of [count] does not
    depend on the offset: whatever offset the query is given, the call raises
    the same [AttributeError] from [self._resource] and the call log stays as
    it was, so no request carries the offset anywhere. *)
Theorem count_outcome_ignores_offset w self q offset :
  heap w !! self = Some q -> _count q = None ->
  let w' := {| heap := alter (set_offset offset) self (heap w); calls := calls w |} in
  heap w' !! self = Some (set_offset offset q)
  /\ (Query.count self w').1
     = Raise (AttributeError "'Query' object has no attribute '_resource'")
  /\ (Query.count self w).1
     = Raise (AttributeError "'Query' object has no attribute '_resource'")
  /\ calls (Query.count self w').2 = calls w
  /\ calls (Query.count self w).2 = calls w.
Proof.
  intros H Hn w'.
  assert (H' : heap w' !! self = Some (set_offset offset q)) by by apply alter_lookup.
  rewrite (count_unbound _ _ _ H Hn), (count_unbound _ _ _ H' Hn). by repeat split.
Qed.

End Properties.

(** ** Properties of Manager *)

Section ManagerProperties.
Context {Obj : Type} `{!PyObject Obj}.
Implicit Types (w : world Obj) (self : Manager Obj).

Lemma new_query_raises self w :
  Manager.new_query self w
  = (Raise (TypeError "__init__() got an unexpected keyword argument 'manager'"), w).
Proof. reflexivity. Qed.

(** C2.  [Manager.all] passes the keyword [manager], which
    [Query.__init__] does not declare: the call raises [TypeError] and no
    query is made. *)
Theorem manager_all_raises_type_error self w :
  Manager.all self w
  = (Raise (TypeError "__init__() got an unexpected keyword argument 'manager'"), w).
Proof. apply new_query_raises. Qed.

Lemma manager_filter_raises self kwargs w :
  Manager.filter self kwargs w
  = (Raise (TypeError "__init__() got an unexpected keyword argument 'manager'"), w).
Proof. unfold Manager.filter, bind. by rewrite new_query_raises. Qed.

Lemma manager_get_raises self kwargs w :
  Manager.get self kwargs w
  = (Raise (TypeError "__init__() got an unexpected keyword argument 'manager'"), w).
Proof. unfold Manager.get, bind. by rewrite new_query_raises. Qed.

Lemma forallb_Forall {A} (f : A -> bool) (l : list A) :
  forallb f l = true <-> Forall (fun x => f x = true) l.
Proof.
  induction l as [|x l IH]; simpl.
  - split; auto.
  - rewrite andb_true_iff, IH. split.
    + intros [? ?]. by constructor.
    + by inversion 1.
Qed.

Lemma forallb_Exists {A} (f : A -> bool) (l : list A) :
  Exists (fun x => f x = false) l -> forallb f l = false.
Proof.
  induction 1 as [x l Hx|x l _ IH]; simpl.
  - by rewrite Hx.
  - rewrite IH. apply andb_false_r.
Qed.

Lemma map_outcome_Forall2 {A B} (f : A -> outcome B) l l' :
  map_outcome f l = Return l' -> Forall2 (fun x y => f x = Return y) l l'.
Proof.
  revert l'. induction l as [|x l IH]; intros l'; simpl.
  - intros [= <-]. constructor.
  - destruct (f x) as [y|] eqn:Hx; [|done].
    destruct (map_outcome f l) as [ys|]; [|done].
    intros [= <-]. constructor; auto.
Qed.

Lemma map_outcome_raises {A B} (f : A -> outcome B) l e :
  map_outcome f l = Raise e -> exists x, x ∈ l /\ f x = Raise e.
Proof.
  induction l as [|x l IH]; simpl; [done|].
  destruct (f x) as [y|e'] eqn:Hx.
  - destruct (map_outcome f l) as [ys|e'']; [done|].
    intros [= <-]. destruct IH as (x' & Hin & Hx'); [done|].
    exists x'. split; [by apply list_elem_of_further|done].
  - intros [= <-]. exists x. split; [apply list_elem_of_here|done].
Qed.

Lemma map_outcome_returns {A B} (f : A -> outcome B) l :
  (forall x, x ∈ l -> exists y, f x = Return y) ->
  exists ys, map_outcome f l = Return ys.
Proof.
  intros Hall. destruct (map_outcome f l) as [ys|e] eqn:Hm; [by eexists|].
  apply map_outcome_raises in Hm as (x & Hin & Hx).
  destruct (Hall x Hin) as [y Hy]. congruence.
Qed.

Lemma Forall2_chain {A B C D} (P : A -> B -> Prop) (Q : B -> C -> Prop)
    (R : C -> D -> Prop) l1 l2 l3 l4 :
  Forall2 P l1 l2 -> Forall2 Q l2 l3 -> Forall2 R l3 l4 ->
  Forall2 (fun x y => exists b c, P x b /\ Q b c /\ R c y) l1 l4.
Proof.
  intros H1. revert l3 l4. induction H1 as [|x b l1 l2 Hx _ IH]; intros l3 l4 H2 H3.
  - inversion H2; subst. inversion H3; subst. constructor.
  - inversion H2 as [|? c ? l3' Hq H2']; subst.
    inversion H3 as [|? y ? l4' Hr H3']; subst.
    constructor; [by exists b, c|]. by apply (IH l3').
Qed.

(** C9.  [bulk_create] leaves the caller's [instances] as it found them,
    whatever happens.  It raises [TypeError] when [instances] is not a list
    and [AssertionError] when an element is not an instance of the bound
    model, in both cases before any remote call.  Otherwise it issues exactly
    one bulk-create call with the serialised instances and returns the
    instances constructed from the echoed records, position by position: when
    the resource echoes the records in the order sent, the instance at each
    position is built from the echo of the instance sent at that position. *)
Theorem bulk_create_checks_then_sends_once self w :
  (forall instances, (Manager.bulk_create self instances w).1.2 = instances)
  /\ (forall o,
       Manager.bulk_create self (Manager.ANotList o) w
       = (Raise (TypeError ("instances must be a list of " +:+ __name__ (_model self)
                            +:+ " instances")), Manager.ANotList o, w))
  /\ (forall l,
       Exists (fun o => isinstance (_model self) o = false) l ->
       Manager.bulk_create self (Manager.AList l) w
       = (Raise (AssertionError ("bulk_create requires all items to be instances of "
                                 +:+ __name__ (_model self))), Manager.AList l, w))
  /\ (forall l data_list,
       Forall (fun o => isinstance (_model self) o = true) l ->
       map_outcome (Manager.to_dict self) l = Return data_list ->
       Manager.bulk_create self (Manager.AList l) w
       = (match remote_bulk_create (RemoteResource := _resource self) data_list with
          | Return response_data => map_outcome (construct (_model self)) response_data
          | Raise e => Raise e
          end,
          Manager.AList l,
          {| heap := heap w; calls := calls w ++ [CallBulkCreate data_list] |})
       /\ (forall response_data news (echo : Row -> Row -> Prop),
             remote_bulk_create (RemoteResource := _resource self) data_list
             = Return response_data ->
             map_outcome (construct (_model self)) response_data = Return news ->
             Forall2 echo data_list response_data ->
             (Manager.bulk_create self (Manager.AList l) w).1.1 = Return news
             /\ Forall2 (fun o new =>
                           exists d r,
                             Manager.to_dict self o = Return d /\ echo d r
                             /\ construct (_model self) r = Return new) l news)).
Proof.
  split; [|split; [|split]].
  - intros instances. unfold Manager.bulk_create.
    by destruct (Manager.bulk_create_body self instances w).
  - reflexivity.
  - intros l Hl. unfold Manager.bulk_create, Manager.bulk_create_body.
    by rewrite (forallb_Exists _ _ Hl).
  - intros l data_list Hl Hd.
    assert (Hrun : Manager.bulk_create self (Manager.AList l) w
                   = (match remote_bulk_create (RemoteResource := _resource self)
                              data_list with
                      | Return response_data =>
                          map_outcome (construct (_model self)) response_data
                      | Raise e => Raise e
                      end,
                      Manager.AList l,
                      {| heap := heap w; calls := calls w ++ [CallBulkCreate data_list] |})).
    { unfold Manager.bulk_create, Manager.bulk_create_body.
      apply forallb_Forall in Hl. rewrite Hl.
      unfold bind, lift, remote. rewrite Hd.
      by destruct (remote_bulk_create data_list). }
    split; [exact Hrun|].
    intros response_data news echo Hr Hn Hecho. rewrite Hrun, Hr. split; [done|].
    apply (Forall2_chain _ _ _ l data_list response_data news);
      [by apply map_outcome_Forall2|done|by apply map_outcome_Forall2].
Qed.

Lemma patch_of_lookup (d : Row) fields acc p :
  Manager.patch_of d fields acc = Return p ->
  (forall key, key ∈ fields -> is_Some (d !! key))
  /\ (forall key, p !! key = if bool_decide (key ∈ fields) then d !! key else acc !! key).
Proof.
  revert acc. induction fields as [|k fields IH]; intros acc; simpl.
  - intros [= <-]. split; [by intros key ?%elem_of_nil|done].
  - destruct (d !! k) as [v|] eqn:Hk; [|done]. intros Hp.
    destruct (IH _ Hp) as [Hd Hl]. split.
    + intros key [->|Hin]%elem_of_cons; [by rewrite Hk|by apply Hd].
    + intros key. rewrite Hl. destruct (decide (key = k)) as [->|Hne].
      * rewrite (bool_decide_eq_true_2 (k ∈ k :: fields)) by apply list_elem_of_here.
        rewrite lookup_insert_eq, Hk. by case_bool_decide.
      * rewrite lookup_insert_ne by done.
        case_bool_decide as H1; case_bool_decide as H2; try done.
        -- exfalso. apply H2. by apply list_elem_of_further.
        -- exfalso. apply elem_of_cons in H2 as [?|?]; done.
Qed.

Lemma patch_of_keys (d : Row) fields p :
  Manager.patch_of d fields ∅ = Return p ->
  (forall key, is_Some (p !! key) <-> key ∈ fields)
  /\ (forall key, key ∈ fields -> p !! key = d !! key).
Proof.
  intros [Hd Hl]%patch_of_lookup. split.
  - intros key. rewrite Hl. case_bool_decide as Hin.
    + split; [done|]. intros _. by apply Hd.
    + rewrite lookup_empty. split; [by intros [? ?]|done].
  - intros key Hin. rewrite Hl. by rewrite bool_decide_eq_true_2.
Qed.

Lemma response_map_of_joins unique_field response_data acc m :
  Manager.response_map_of unique_field response_data acc = Return m ->
  forall pk item, m !! pk = Some item ->
    (item ∈ response_data /\ item !! unique_field = Some pk) \/ acc !! pk = Some item.
Proof.
  revert acc. induction response_data as [|r data IH]; intros acc; simpl.
  - intros [= <-]. auto.
  - destruct (r !! unique_field) as [k|] eqn:Hk; [|done].
    intros Hm pk item Hl. destruct (IH _ Hm pk item Hl) as [[Hin Hu]|Hacc].
    + left. split; [by apply list_elem_of_further|done].
    + destruct (decide (k = pk)) as [->|Hne].
      * rewrite lookup_insert_eq in Hacc. injection Hacc as <-.
        left. split; [apply list_elem_of_here|done].
      * rewrite lookup_insert_ne in Hacc by done. by right.
Qed.

Lemma insert_middle (done rest : list Obj) x y :
  <[length done := y]> (done ++ x :: rest) = done ++ y :: rest.
Proof. induction done as [|z done IH]; simpl; [done|]. by f_equal. Qed.

Lemma replace_from_all self (response_map : gmap pyval Row) done rest news :
  Forall2 (fun obj new =>
             exists pk item,
               getattr obj (_unique_field self) = Return pk
               /\ response_map !! pk = Some item
               /\ construct (_model self) item = Return new) rest news ->
  Manager.replace_from self response_map (length rest) (length done) (done ++ rest)
  = (Return tt, done ++ news).
Proof.
  intros H. revert done. induction H as [|obj new rest news Hx _ IH]; intros done.
  - done.
  - destruct Hx as (pk & item & Hpk & Hitem & Hnew). simpl.
    rewrite list_lookup_middle by done. rewrite Hpk, Hitem.
    unfold Manager.from_dict. rewrite Hnew. rewrite insert_middle.
    replace (S (length done)) with (length (done ++ [new]))
      by (rewrite length_app; simpl; lia).
    rewrite (cons_middle new done rest), (cons_middle new done news).
    rewrite !app_assoc. apply IH.
Qed.

Lemma replace_from_absent self (response_map : gmap pyval Row) done rest :
  Exists (fun obj =>
            exists pk, getattr obj (_unique_field self) = Return pk
                       /\ response_map !! pk = None) rest ->
  exists e,
    (Manager.replace_from self response_map (length rest) (length done) (done ++ rest)).1
    = Raise e.
Proof.
  intros H. revert done. induction rest as [|obj rest IH]; intros done.
  - by apply Exists_nil in H.
  - simpl. rewrite list_lookup_middle by done.
    destruct (getattr obj (_unique_field self)) as [pk|e] eqn:Hpk; [|by eexists].
    destruct (response_map !! pk) as [item|] eqn:Hitem; [|by eexists].
    destruct (Manager.from_dict self item) as [new|e] eqn:Hnew; [|by eexists].
    apply Exists_cons in H as [(pk' & Hpk' & Hnone)|H]; [congruence|].
    rewrite insert_middle.
    replace (S (length done)) with (length (done ++ [new]))
      by (rewrite length_app; simpl; lia).
    rewrite (cons_middle new done rest), app_assoc. by apply IH.
Qed.

Lemma patch_of_raises_key_error (d : Row) fields acc e :
  Manager.patch_of d fields acc = Raise e ->
  exists key, e = KeyError (VStr key) /\ key ∈ fields /\ d !! key = None.
Proof.
  revert acc. induction fields as [|k fields IH]; intros acc; simpl; [done|].
  destruct (d !! k) as [v|] eqn:Hk.
  - intros (key & -> & Hin & Hn)%IH. exists key. split; [done|].
    split; [by apply list_elem_of_further|done].
  - intros [= <-]. exists k. split; [done|]. split; [apply list_elem_of_here|done].
Qed.

Lemma patch_of_total (d : Row) fields acc :
  (forall key, key ∈ fields -> is_Some (d !! key)) ->
  exists p, Manager.patch_of d fields acc = Return p.
Proof.
  intros Hall. destruct (Manager.patch_of d fields acc) as [p|e] eqn:Hp; [by eexists|].
  apply patch_of_raises_key_error in Hp as (key & _ & Hin & Hn).
  destruct (Hall key Hin) as [v Hv]. congruence.
Qed.

Lemma response_map_of_total unique_field data acc :
  Forall (fun item : Row => is_Some (item !! unique_field)) data ->
  exists m, Manager.response_map_of unique_field data acc = Return m.
Proof.
  intros H. revert acc. induction H as [|item data [pk Hpk] _ IH]; intros acc; simpl.
  - by eexists.
  - rewrite Hpk. apply IH.
Qed.

Lemma response_map_of_keeps unique_field data acc m (pk : pyval) :
  Manager.response_map_of unique_field data acc = Return m ->
  Forall (fun r => r !! unique_field <> Some pk) data ->
  m !! pk = acc !! pk.
Proof.
  revert acc. induction data as [|r data IH]; intros acc; simpl.
  - by intros [= <-].
  - destruct (r !! unique_field) as [k|] eqn:Hk; [|done].
    intros Hm [Hne Hrest]%Forall_cons. rewrite (IH _ Hm Hrest).
    apply lookup_insert_ne. congruence.
Qed.

Lemma response_map_of_app unique_field pre post acc m :
  Manager.response_map_of unique_field (pre ++ post) acc = Return m ->
  exists mid,
    Manager.response_map_of unique_field pre acc = Return mid
    /\ Manager.response_map_of unique_field post mid = Return m.
Proof.
  revert acc. induction pre as [|r pre IH]; intros acc; simpl.
  - intros Hm. by exists acc.
  - destruct (r !! unique_field) as [k|]; [|done]. apply IH.
Qed.

Lemma response_map_finds_last unique_field pre item post acc m (pk : pyval) :
  Manager.response_map_of unique_field (pre ++ item :: post) acc = Return m ->
  item !! unique_field = Some pk ->
  Forall (fun r => r !! unique_field <> Some pk) post ->
  m !! pk = Some item.
Proof.
  intros Hm Hitem Hpost.
  apply response_map_of_app in Hm as (mid & _ & Hm). simpl in Hm. rewrite Hitem in Hm.
  rewrite (response_map_of_keeps _ _ _ _ pk Hm Hpost). apply lookup_insert_eq.
Qed.

(** C8.  [bulk_update], once every instance is serialised and holds every
    update field: one patch per instance, holding the [update_fields] entries
    of that instance and no other key, sent in exactly one bulk-update call.
    When the resource answers with records that all carry the unique field,
    each instance is matched with the last record of the answer that has its
    unique-field value, wherever that record stands in the answer: if every
    instance has such a record, the call returns [None] and every position of
    [instances] holds the instance constructed from its record; if some
    instance's unique-field value occurs in no record, the call fails. *)
Theorem bulk_update_sends_update_fields_and_rejoins self instances update_fields w
    data_list :
  map_outcome (Manager.to_dict self) instances = Return data_list ->
  (forall d key, d ∈ data_list -> key ∈ update_fields -> is_Some (d !! key)) ->
  exists patch_list,
    Forall2 (fun d p =>
               (forall key, is_Some (p !! key) <-> key ∈ update_fields)
               /\ (forall key, key ∈ update_fields -> p !! key = d !! key))
      data_list patch_list
    /\ (Manager.bulk_update self instances update_fields w).2
       = {| heap := heap w; calls := calls w ++ [CallBulkUpdatePatch patch_list] |}
    /\ (forall response_data,
          remote_bulk_update_patch (RemoteResource := _resource self) patch_list
          = Return response_data ->
          Forall (fun item : Row => is_Some (item !! _unique_field self)) response_data ->
          (forall news,
             Forall2 (fun obj new =>
                        exists pk item pre post,
                          getattr obj (_unique_field self) = Return pk
                          /\ response_data = pre ++ item :: post
                          /\ item !! _unique_field self = Some pk
                          /\ Forall (fun r => r !! _unique_field self <> Some pk) post
                          /\ construct (_model self) item = Return new)
               instances news ->
             (Manager.bulk_update self instances update_fields w).1 = (Return tt, news))
          /\ (Exists (fun obj =>
                        exists pk,
                          getattr obj (_unique_field self) = Return pk
                          /\ Forall (fun r => r !! _unique_field self <> Some pk)
                               response_data) instances ->
              exists e,
                (Manager.bulk_update self instances update_fields w).1.1 = Raise e)).
Proof.
  intros Hd Hfields.
  destruct (map_outcome_returns (fun d => Manager.patch_of d update_fields ∅) data_list)
    as [patch_list Hp].
  { intros d Hin. apply patch_of_total. intros key Hk. by apply (Hfields d key). }
  exists patch_list. split; [|split].
  - apply map_outcome_Forall2 in Hp.
    eapply Forall2_impl; [exact Hp|]. intros d p. apply patch_of_keys.
  - unfold Manager.bulk_update, Manager.bulk_update_exchange, bind, lift, remote.
    rewrite Hd, Hp.
    destruct (remote_bulk_update_patch patch_list) as [response_data|e]; [|done].
    by destruct (Manager.response_map_of (_unique_field self) response_data ∅).
  - intros response_data Hr Hall.
    destruct (response_map_of_total (_unique_field self) response_data ∅ Hall)
      as [response_map Hm].
    assert (Hrun : Manager.bulk_update_exchange self instances update_fields w
                   = (Return response_map,
                      {| heap := heap w;
                         calls := calls w ++ [CallBulkUpdatePatch patch_list] |})).
    { unfold Manager.bulk_update_exchange, bind, lift, remote.
      by rewrite Hd, Hp, Hr, Hm. }
    unfold Manager.bulk_update. rewrite Hrun. simpl. split.
    + intros news Hnews.
      apply (replace_from_all self response_map [] instances news).
      eapply Forall2_impl; [exact Hnews|].
      intros obj new (pk & item & pre & post & Hpk & Heq & Hitem & Hpost & Hnew).
      exists pk, item. split; [done|]. split; [|done].
      apply (response_map_finds_last (_unique_field self) pre item post ∅);
        [by rewrite <- Heq|done|done].
    + intros Hex. apply (replace_from_absent self response_map [] instances).
      eapply Exists_impl; [exact Hex|].
      intros obj (pk & Hpk & Hnone). exists pk. split; [done|].
      rewrite (response_map_of_keeps _ _ _ _ pk Hm Hnone). apply lookup_empty.
Qed.

End ManagerProperties.

(** ** Closed evaluations on the example *)

Import Example.

(** [Query(Job)[2:5]] lets all three operations through; a fresh [Query(Job)] gets the error object. *)
Lemma narrowing_guard_is_inverted_witness :
  ((Query.filter 0 by_name (one sliced)).1 = Return (Clone 1)
   /\ (Query.exclude 0 by_name (one sliced)).1 = Return (Clone 1)
   /\ (Query.order_by 0 ["name"] (one sliced)).1 = Return (Clone 1))
  /\ (Query.filter 0 by_name (one fresh)
      = (Return (ErrorValue (AttributeError "Cannot filter a sliced Query")), one fresh)
      /\ Query.exclude 0 by_name (one fresh)
         = (Return (ErrorValue (AttributeError "Cannot filter a sliced Query")), one fresh)
      /\ Query.order_by 0 ["name"] (one fresh)
         = (Return (ErrorValue (AttributeError "Cannot re-order a sliced Query")),
            one fresh)).
Proof.
  split.
  - exact (proj1 (narrowing_guard_is_inverted (one sliced) 0 sliced by_name ["name"]
                    eq_refl) 3 2 [] eq_refl eq_refl eq_refl).
  - exact (proj2 (narrowing_guard_is_inverted (one fresh) 0 fresh by_name ["name"]
                    eq_refl) (or_introl eq_refl)).
Defined.

(** [filter(name="a")] on [Query(Job)[2:5]]. *)
Lemma filter_frame_and_merge_witness :
  exists c,
    (Query.filter 0 by_name (one sliced)).1 = Return (Clone 1)
    /\ heap (Query.filter 0 by_name (one sliced)).2 !! 1%nat = Some c
    /\ 1%nat <> 0%nat
    /\ (forall key, _filters c !! key
                    = match by_name !! key with
                      | Some v => Some v
                      | None => _filters sliced !! key
                      end)
    /\ _result_cache c = None /\ _count c = None.
Proof.
  exact (proj1 (proj2 (filter_frame_and_merge (one sliced) 0 sliced by_name eq_refl))
           3 2 [] eq_refl eq_refl eq_refl).
Defined.

(** [Query(Job)[:5]] *)
Lemma slice_needs_both_bounds_witness :
  exists msg w',
    Query.__getitem__ 0
      (KSlice {| start := None; stop := Some 5; step := None |}) (one fresh)
    = (Raise (TypeError msg), w')
    /\ calls w' = calls (one fresh).
Proof.
  exact (proj2 (slice_needs_both_bounds (one fresh) 0 fresh []
                  None (Some 5) eq_refl eq_refl eq_refl eq_refl eq_refl)
           (or_introl eq_refl)).
Defined.

(** [Query(Job)[2:5].order_by("name")[0]] *)
Lemma index_on_ordered_query_raises_witness :
  exists w',
    Query.__getitem__ 2 (KInt 0) ordered_world
    = (Raise (AttributeError "'tuple' object has no attribute 'copy'"), w')
    /\ calls w' = calls ordered_world.
Proof.
  apply (index_on_ordered_query_raises ordered_world 2 ordered
           ["name"] 0).
  - reflexivity.
  - reflexivity.
  - reflexivity.
  - lia.
Defined.

(** [Query(Job).get(name="a")] *)
Lemma get_on_unsliced_query_raises_type_error_witness :
  (Query.get 0 by_name (one fresh)).1
  = Raise (TypeError "'AttributeError' object is not iterable")
  /\ calls (Query.get 0 by_name (one fresh)).2
     = calls (one fresh).
Proof.
  exact (get_on_unsliced_query_raises_type_error
           (one fresh) 0 fresh by_name eq_refl (or_introl eq_refl)).
Defined.

(** [count] on a counted query and on a fresh one. *)
Lemma count_miss_raises_before_any_request_witness :
  Query.count 0 (one counted) = (Return 5, one counted)
  /\ Query.count 0 (one fresh)
     = (Raise (AttributeError "'Query' object has no attribute '_resource'"), one fresh).
Proof.
  split.
  - exact (proj1 (count_miss_raises_before_any_request (one counted) 0 counted eq_refl)
             5 eq_refl).
  - exact (proj2 (count_miss_raises_before_any_request (one fresh) 0 fresh eq_refl)
             eq_refl).
Defined.

(** [count] on a fresh [Query(Job)] and on the same query given offset 2. *)
Lemma count_outcome_ignores_offset_witness :
  let w' := {| heap := alter (set_offset (Some 2)) 0%nat (heap (one fresh));
               calls := calls (one fresh) |} in
  heap w' !! 0%nat = Some (set_offset (Some 2) fresh)
  /\ (Query.count 0 w').1
     = Raise (AttributeError "'Query' object has no attribute '_resource'")
  /\ (Query.count 0 (one fresh)).1
     = Raise (AttributeError "'Query' object has no attribute '_resource'")
  /\ calls (Query.count 0 w').2 = calls (one fresh)
  /\ calls (Query.count 0 (one fresh)).2 = calls (one fresh).
Proof.
  exact (count_outcome_ignores_offset (one fresh) 0 fresh (Some 2) eq_refl eq_refl).
Defined.

(** [list(Query(Job)[2:5])] from the empty world: the slice is a lazy clone
    with offset 2 and limit 3, and consuming it raises without a request. *)
Lemma slice_2_5_example :
  let run :=
    (q <- Query.__init__ (Some Job) ;;
     s <- Query.__getitem__ q
            (KSlice {| start := Some 2; stop := Some 5; step := None |}) ;;
     match s with
     | Lazy c => Query.__iter__ c
     | _ => raise NotImplementedError
     end) empty_world in
  run.1 = Raise (AttributeError "'ModelIterable' object has no attribute '_resource'")
  /\ calls run.2 = []
  /\ heap run.2 !! 1%nat = Some (set_limit (Some 3) (set_offset (Some 2) fresh)).
Proof. repeat split. Qed.

(** [bulk_create([a, b])] against the echoing stub. *)
Lemma bulk_create_checks_then_sends_once_witness :
  (Manager.bulk_create (PyObject0 := job_object) manager (Manager.AList [a; b])
     empty_world).1.1 = Return [a; b]
  /\ Forall2 (fun o new =>
                exists d r,
                  Manager.to_dict (PyObject0 := job_object) manager o = Return d
                  /\ d = r /\ construct (_model manager) r = Return new) [a; b] [a; b].
Proof.
  destruct (bulk_create_checks_then_sends_once (PyObject0 := job_object) manager
              empty_world) as (_ & _ & _ & Hsend).
  destruct (Hsend [a; b] [job_attrs a; job_attrs b]) as [_ Horder].
  - repeat constructor.
  - reflexivity.
  - apply (Horder [job_attrs a; job_attrs b] [a; b] (@eq Row)).
    + reflexivity.
    + reflexivity.
    + repeat constructor.
Defined.

(** [bulk_create([a, stranger])]: the failure is not a [TypeError]. *)
Lemma bulk_create_foreign_element_not_type_error :
  isinstance Job stranger = false
  /\ ~ (exists msg,
          (Manager.bulk_create (PyObject0 := job_object) manager
             (Manager.AList [a; stranger]) empty_world).1.1 = Raise (TypeError msg)).
Proof.
  split; [reflexivity|]. intros [msg H]. vm_compute in H. discriminate H.
Qed.

(** [bulk_update([a, b], {"name"})] with the answer in reverse order. *)
Lemma bulk_update_sends_update_fields_and_rejoins_witness :
  (Manager.bulk_update (PyObject0 := job_object) manager [a; b] ["name"] empty_world).1
  = (Return tt, [job_of updated_a; job_of updated_b]).
Proof.
  destruct (bulk_update_sends_update_fields_and_rejoins (PyObject0 := job_object)
              manager [a; b] ["name"] empty_world [job_attrs a; job_attrs b] eq_refl)
    as (patch_list & _ & _ & Hrejoin).
  - intros d key Hd Hkey.
    apply list_elem_of_singleton in Hkey as ->.
    apply elem_of_cons in Hd as [->|Hd]; [by eexists|].
    apply list_elem_of_singleton in Hd as ->. by eexists.
  - apply (Hrejoin [updated_b; updated_a] eq_refl).
    + repeat constructor; by eexists.
    + repeat constructor.
      * exists (VInt 1), updated_a, [updated_b], []. repeat split; constructor.
      * exists (VInt 2), updated_b, [], [updated_a]. repeat split.
        repeat constructor. discriminate.
Defined.

(** The patches of [bulk_update([a, b], {"name"})] do not hold [pk]. *)
Lemma bulk_update_patch_lacks_unique_field :
  _unique_field manager = "pk"
  /\ ~ (exists patch_list,
          calls (Manager.bulk_update (PyObject0 := job_object) manager [a; b] ["name"]
                   empty_world).2 = [CallBulkUpdatePatch patch_list]
          /\ Forall (fun p => is_Some (p !! "pk")) patch_list).
Proof.
  split; [reflexivity|]. intros (patch_list & Hc & Hall).
  assert (Hsent : calls (Manager.bulk_update (PyObject0 := job_object) manager [a; b]
                           ["name"] empty_world).2
                  = [CallBulkUpdatePatch [name_patch "a"; name_patch "b"]])
    by reflexivity.
  rewrite Hsent in Hc. injection Hc as <-.
  apply Forall_cons in Hall as [[v Hv] _]. discriminate Hv.
Qed.

(** ** Indexing and slicing Python lists *)

Section Slices.
Context {A : Type}.
Implicit Types (l : list A).

Lemma omap_lookup_run l (i k n : nat) :
  (i + k + n <= length l)%nat ->
  omap (fun j => l !! Z.to_nat (Z.of_nat i + Z.of_nat j * 1)) (seq k n)
  = take n (drop (i + k) l).
Proof.
  revert k. induction n as [|n IH]; intros k Hle; [done|].
  simpl seq. simpl omap.
  replace (Z.to_nat (Z.of_nat i + Z.of_nat k * 1)) with (i + k)%nat by lia.
  destruct (l !! (i + k)%nat) as [x|] eqn:Hx.
  - rewrite (drop_S _ _ _ Hx). simpl. f_equal.
    rewrite IH by lia. by replace (i + S k)%nat with (S (i + k)) by lia.
  - apply lookup_ge_None in Hx. lia.
Qed.

Lemma take_drop_clamp l (a b : nat) :
  take (b `min` length l - a `min` length l) (drop (a `min` length l) l)
  = take (b - a) (drop a l).
Proof.
  destruct (decide (length l <= a)%nat) as [Hge|Hlt].
  - rewrite (drop_ge l a) by done. rewrite (drop_ge l (a `min` length l)) by lia.
    by rewrite !take_nil.
  - replace (a `min` length l)%nat with a by lia.
    destruct (decide (b <= length l)%nat) as [Hb|Hb].
    + by replace (b `min` length l)%nat with b by lia.
    + replace (b `min` length l)%nat with (length l) by lia.
      rewrite !take_ge; [done| |]; rewrite length_drop; lia.
Qed.

Lemma list_slice_plain l (st sp : option Z) :
  non_negative st = true -> non_negative sp = true ->
  list_slice l {| start := st; stop := sp; step := None |}
  = Return (take (from_option Z.to_nat (length l) sp - from_option Z.to_nat 0%nat st)
              (drop (from_option Z.to_nat 0%nat st) l)).
Proof.
  intros Hst Hsp. unfold list_slice, slice_indices. simpl.
  set (len := Z.of_nat (length l)).
  set (a := from_option Z.to_nat 0%nat st).
  set (b := from_option Z.to_nat (length l) sp).
  assert (Ha : match st with
               | Some i => if i <? 0 then Z.max (i + len) 0 else Z.min i len
               | None => 0
               end = Z.of_nat (a `min` length l)).
  { subst a. destruct st as [i|]; simpl in *; [|lia].
    apply Z.leb_le in Hst. destruct (Z.ltb_spec i 0); lia. }
  assert (Hb : match sp with
               | Some i => if i <? 0 then Z.max (i + len) 0 else Z.min i len
               | None => len
               end = Z.of_nat (b `min` length l)).
  { subst b. destruct sp as [i|]; simpl in *; [|lia].
    apply Z.leb_le in Hsp. destruct (Z.ltb_spec i 0); lia. }
  rewrite Ha, Hb. f_equal. rewrite <- take_drop_clamp.
  set (a' := (a `min` length l)%nat). set (b' := (b `min` length l)%nat).
  unfold slice_length. simpl.
  destruct (Z.ltb_spec (Z.of_nat a') (Z.of_nat b')) as [Hlt|Hge].
  - rewrite Z.div_1_r.
    replace (Z.to_nat (Z.of_nat b' - Z.of_nat a' - 1 + 1)) with (b' - a')%nat by lia.
    rewrite (omap_lookup_run l a' 0 (b' - a')) by lia.
    by replace (a' + 0)%nat with a' by lia.
  - replace (b' - a')%nat with 0%nat by lia. by rewrite take_0.
Qed.

Lemma list_slice_zero_step l (st sp : option Z) :
  list_slice l {| start := st; stop := sp; step := Some 0 |}
  = Raise (ValueError "slice step cannot be zero").
Proof. reflexivity. Qed.

Lemma omap_seq_lookup (f : nat -> option A) (k n j : nat) :
  (forall i, (k <= i < k + n)%nat -> is_Some (f i)) ->
  omap f (seq k n) !! j = if decide (j < n)%nat then f (k + j)%nat else None.
Proof.
  revert k j. induction n as [|n IH]; intros k j Hall.
  { destruct (decide (j < 0)%nat); [lia|]. apply lookup_nil. }
  destruct (Hall k ltac:(lia)) as [x Hx].
  change (omap f (seq k (S n))) with (from_option (fun y => y :: omap f (seq (S k) n))
                                        (omap f (seq (S k) n)) (f k)).
  rewrite Hx. simpl from_option.
  destruct j as [|j].
  - destruct (decide (0 < S n)%nat); [|lia]. by rewrite Nat.add_0_r, Hx.
  - change ((x :: omap f (seq (S k) n)) !! S j) with (omap f (seq (S k) n) !! j).
    rewrite IH by (intros i Hi; apply Hall; lia).
    replace (S k + j)%nat with (k + S j)%nat by lia.
    destruct (decide (j < n)%nat), (decide (S j < S n)%nat); try done; lia.
Qed.

Lemma list_slice_stride l (s : Z) :
  0 < s ->
  exists r,
    list_slice l {| start := None; stop := None; step := Some s |} = Return r
    /\ forall j : nat, r !! j = l !! (j * Z.to_nat s)%nat.
Proof.
  intros Hs. unfold list_slice, slice_indices. simpl.
  destruct (Z.eqb_spec s 0); [lia|]. destruct (Z.ltb_spec s 0); [lia|].
  eexists. split; [reflexivity|]. intros j.
  set (len := Z.of_nat (length l)). unfold slice_length.
  destruct (Z.ltb_spec s 0); [lia|].
  assert (Hidx : forall i : nat, Z.to_nat (0 + Z.of_nat i * s) = (i * Z.to_nat s)%nat)
    by (intros i; nia).
  destruct (Z.ltb_spec 0 len) as [Hpos|Hemp].
  - set (d := (len - 0 - 1) / s).
    assert (Hd1 : s * d <= len - 0 - 1) by (apply Z.mul_div_le; lia).
    assert (Hd2 : len - 0 - 1 < s * Z.succ d) by (apply Z.mul_succ_div_gt; lia).
    assert (Hd0 : 0 <= d) by (apply Z.div_pos; lia).
    rewrite omap_seq_lookup.
    + simpl. rewrite Hidx. case_decide as Hj; [done|].
      symmetry. apply lookup_ge_None. nia.
    + intros i Hi. rewrite Hidx. apply lookup_lt_is_Some. nia.
  - simpl. rewrite lookup_nil. symmetry. apply lookup_ge_None. subst len. lia.
Qed.

Lemma removelast_take l (n : nat) :
  (n < length l)%nat -> removelast (take (S n) l) = take n l.
Proof.
  revert l. induction n as [|n IH]; intros [|x l] Hl; simpl in *; try lia.
  - by destruct l.
  - rewrite <- (IH l) by lia. destruct l; simpl in *; [lia|done].
Qed.
End Slices.

(** ** Materialisation, subscripts and chaining *)

Section MoreQuery.
Context {Obj : Type}.
Implicit Types (w : world Obj) (q : Query Obj) (self : ref).

Lemma fetch_frame w c r :
  r <> c -> heap (Query._fetch_cache c w).2 !! r = heap w !! r.
Proof. intros _. by rewrite fetch_keeps_world. Qed.

Lemma clone_appends w self q :
  heap w !! self = Some q ->
  exists c, (Query._clone self w).2 = {| heap := heap w ++ [c]; calls := calls w |}.
Proof.
  intros H. destruct (_order_fields q) as [fs|fs] eqn:Hf.
  - rewrite (clone_of_list _ _ _ _ H Hf). by eexists.
  - destruct (clone_of_tuple _ _ _ _ H Hf) as [junk ->]. by eexists.
Qed.

Lemma set_limits_frame w c st sp r :
  r <> c -> heap (Query._set_limits c st sp w).2 !! r = heap w !! r.
Proof.
  intros Hne. unfold Query._set_limits, bind, assign, lift. simpl.
  destruct (py_sub sp st); simpl; by rewrite ?list_lookup_alter_ne.
Qed.

Lemma iter_keeps_world w c : (Query.__iter__ c w).2 = w.
Proof.
  unfold Query.__iter__, bind.
  pose proof (fetch_keeps_world w c) as Hf.
  destruct (Query._fetch_cache c w) as [[[]|e] w1]; simpl in Hf; subst; [|done].
  apply cache_keeps_world.
Qed.

Lemma iter_frame w c r :
  r <> c -> heap (Query.__iter__ c w).2 !! r = heap w !! r.
Proof. intros _. by rewrite iter_keeps_world. Qed.

(** X8.  Whatever the index and whatever the outcome, [__getitem__] leaves
    the receiver's attributes as they were: what it fetches is stored in a
    clone. *)
Theorem subscript_never_changes_receiver w self q k :
  heap w !! self = Some q ->
  heap (Query.__getitem__ self k w).2 !! self = Some q.
Proof.
  intros H. assert (Hlt : (self < length (heap w))%nat) by by eapply lookup_lt_Some.
  unfold Query.__getitem__. destruct k as [i|s|name]; [| |done].
  - destruct (0 <=? i); [|done].
    unfold bind at 1. rewrite (deref_some _ _ _ H).
    destruct (_result_cache q) as [l|].
    { unfold bind, lift, ret. by destruct (list_item l i). }
    unfold bind at 1.
    destruct (_order_fields q) as [fs|fs] eqn:Hf.
    2:{ destruct (clone_of_tuple _ _ _ _ H Hf) as [junk ->]. simpl. by apply lookup_old. }
    rewrite (clone_of_list _ _ _ _ H Hf).
    unfold bind at 1. rewrite set_limits_both.
    unfold bind at 1.
    match goal with |- context [Query._fetch_cache ?c ?w1] =>
      pose proof (fetch_frame w1 c self ltac:(lia)) as Hfr;
      destruct (Query._fetch_cache c w1) as [[[]|e] w2] end; simpl in Hfr.
    2:{ simpl. rewrite Hfr. rewrite !list_lookup_alter_ne by lia. by apply lookup_old. }
    unfold bind at 1.
    match goal with |- context [Query.cache ?c ?w1] =>
      pose proof (cache_keeps_world w1 c) as Hk;
      destruct (Query.cache c w1) as [[l|e] w3] end; simpl in Hk; subst.
    2:{ simpl. rewrite Hfr. rewrite !list_lookup_alter_ne by lia. by apply lookup_old. }
    unfold bind, lift, ret.
    destruct (list_item l 0); simpl; rewrite Hfr;
      rewrite !list_lookup_alter_ne by lia; by apply lookup_old.
  - destruct (non_negative (start s) && non_negative (stop s)); [|done].
    unfold bind at 1. rewrite (deref_some _ _ _ H).
    destruct (_result_cache q) as [l|].
    { unfold bind, lift, ret. by destruct (list_slice l s). }
    unfold bind at 1.
    destruct (_order_fields q) as [fs|fs] eqn:Hf.
    2:{ destruct (clone_of_tuple _ _ _ _ H Hf) as [junk ->]. simpl. by apply lookup_old. }
    rewrite (clone_of_list _ _ _ _ H Hf).
    unfold bind at 1.
    match goal with |- context [Query._set_limits ?c ?a ?b ?w1] =>
      pose proof (set_limits_frame w1 c a b self ltac:(simpl; lia)) as Hs;
      destruct (Query._set_limits c a b w1) as [[[]|e] w2] end; simpl in Hs.
    2:{ simpl. rewrite Hs. by apply lookup_old. }
    destruct (truthy (step s)).
    2:{ simpl. rewrite Hs. by apply lookup_old. }
    unfold bind at 1.
    match goal with |- context [Query.__iter__ ?c ?w1] =>
      pose proof (iter_frame w1 c self ltac:(lia)) as Hi;
      destruct (Query.__iter__ c w1) as [[l|e] w3] end; simpl in Hi.
    2:{ simpl. rewrite Hi, Hs. by apply lookup_old. }
    unfold bind, lift, ret.
    destruct (list_slice l _); simpl; rewrite Hi, Hs; by apply lookup_old.
Qed.

(** X3.  Fetching an unmaterialised query raises [AttributeError] for
    the missing [_resource] of its iterable, whatever the query's model
    class, filters and window, and leaves the world as it was: no request is
    sent and neither the result cache nor the count is set. *)
Theorem fetch_raises_before_any_request w self q :
  heap w !! self = Some q -> _result_cache q = None ->
  Query._fetch_cache self w
  = (Raise (AttributeError ("'" +:+ Iterable.class_name (_iterable_class q)
                            +:+ "' object has no attribute '_resource'")), w)
  /\ Query._query_iterator self w
     = (Raise (AttributeError ("'" +:+ Iterable.class_name (_iterable_class q)
                               +:+ "' object has no attribute '_resource'")), w).
Proof.
  intros H Hc. split; [by rewrite (fetch_unbound _ _ _ H Hc)|].
  unfold Query._query_iterator, bind. by rewrite (deref_some _ _ _ H).
Qed.

Lemma iter_cached w self q l :
  heap w !! self = Some q -> _result_cache q = Some l ->
  Query.__iter__ self w = (Return l, w).
Proof.
  intros H Hc. unfold Query.__iter__, bind. rewrite (fetch_cached _ _ _ _ H Hc).
  unfold Query.cache, bind. by rewrite (deref_some _ _ _ H), Hc.
Qed.

(** X4.  A query that holds a result cache is consumed without a fetch:
    iteration gives the cached objects, [__len__] their number and
    [__bool__] whether there is at least one, and the world stays as it
    was. *)
Theorem materialised_query_is_served_from_cache w self q l :
  heap w !! self = Some q -> _result_cache q = Some l ->
  Query.__iter__ self w = (Return l, w)
  /\ Query.__len__ self w = (Return (length l), w)
  /\ Query.__bool__ self w = (Return (match l with [] => false | _ => true end), w).
Proof.
  intros H Hc. split; [by apply (iter_cached _ _ q)|].
  unfold Query.__len__, Query.__bool__, bind. rewrite (fetch_cached _ _ _ _ H Hc).
  unfold Query.cache, bind. rewrite (deref_some _ _ _ H), Hc. unfold ret.
  split; [done|]. by destruct l.
Qed.

(** X6.  On a query without a result cache, iteration, [__len__] and
    [__bool__] all end in the [AttributeError] of the fetch and leave the
    world as it was. *)
Theorem consuming_unmaterialised_query_raises w self q :
  heap w !! self = Some q -> _result_cache q = None ->
  Query.__iter__ self w
  = (Raise (AttributeError ("'" +:+ Iterable.class_name (_iterable_class q)
                            +:+ "' object has no attribute '_resource'")), w)
  /\ Query.__len__ self w
     = (Raise (AttributeError ("'" +:+ Iterable.class_name (_iterable_class q)
                               +:+ "' object has no attribute '_resource'")), w)
  /\ Query.__bool__ self w
     = (Raise (AttributeError ("'" +:+ Iterable.class_name (_iterable_class q)
                               +:+ "' object has no attribute '_resource'")), w).
Proof.
  intros H Hc. unfold Query.__iter__, Query.__len__, Query.__bool__, bind.
  by rewrite (fetch_unbound _ _ _ H Hc).
Qed.

(** X7.  [__getitem__] refuses, before reading anything and with the world
    unchanged, an index that is neither an integer nor a slice ([TypeError]),
    a negative integer and a slice with a negative start or stop
    ([AssertionError]). *)
Theorem subscript_rejects_bad_index w self :
  (forall name,
     Query.__getitem__ self (KOther name) w
     = (Raise (TypeError ("Query indices must be integers or slices, not "
                          +:+ name +:+ ".")), w))
  /\ (forall k, k < 0 ->
        Query.__getitem__ self (KInt k) w
        = (Raise (AssertionError "Negative indexing is not supported."), w))
  /\ (forall s,
        (exists a, start s = Some a /\ a < 0) \/ (exists b, stop s = Some b /\ b < 0) ->
        Query.__getitem__ self (KSlice s) w
        = (Raise (AssertionError "Negative indexing is not supported."), w)).
Proof.
  split; [done|]. split.
  - intros k Hk. unfold Query.__getitem__. by destruct (Z.leb_spec 0 k); [lia|].
  - intros s Hs. unfold Query.__getitem__.
    replace (non_negative (start s) && non_negative (stop s)) with false; [done|].
    symmetry. apply andb_false_iff.
    destruct Hs as [(a & -> & Ha)|(b & -> & Hb)]; [left|right]; simpl;
      apply Z.leb_gt; lia.
Qed.

Lemma quiet_ret {A} (a : A) : quiet (ret (W := world Obj) a).
Proof. by intros w. Qed.

Lemma quiet_raise {A} e : quiet (raise (W := world Obj) (A := A) e).
Proof. by intros w. Qed.

Lemma quiet_lift {A} (o : outcome A) : quiet (lift (W := world Obj) o).
Proof. by intros w. Qed.

Lemma quiet_deref r : quiet (deref (Obj := Obj) r).
Proof. intros w. unfold deref. by destruct (heap w !! r). Qed.

Lemma quiet_assign r f : quiet (assign (Obj := Obj) r f).
Proof. by intros w. Qed.

Lemma quiet_alloc q : quiet (alloc (Obj := Obj) q).
Proof. by intros w. Qed.

Lemma quiet_bind {A B} (c : M (world Obj) A) (k : A -> M (world Obj) B) :
  quiet c -> (forall a, quiet (k a)) -> quiet (bind c k).
Proof.
  intros Hc Hk w. unfold bind. specialize (Hc w).
  destruct (c w) as [[a|e] w1]; simpl in *; [|done].
  by rewrite (Hk a w1).
Qed.

(** What follows a failed attribute lookup never runs. *)
Lemma quiet_after_no_attribute {A B} cls attr (k : A -> M (world Obj) B) :
  quiet (bind (lift (no_attribute cls attr)) k).
Proof. by intros w. Qed.

Ltac quiet_step :=
  first
    [ apply quiet_after_no_attribute
    | apply quiet_bind; [|intros ?]
    | apply quiet_ret | apply quiet_raise | apply quiet_lift
    | apply quiet_deref | apply quiet_assign | apply quiet_alloc ].

Lemma quiet_clone self : quiet (Query._clone (Obj := Obj) self).
Proof. unfold Query._clone, Query.__init__. repeat quiet_step. Qed.

Lemma quiet_set_limits self st sp : quiet (Query._set_limits (Obj := Obj) self st sp).
Proof. unfold Query._set_limits. repeat quiet_step. Qed.

Lemma quiet_fetch self : quiet (Query._fetch_cache (Obj := Obj) self).
Proof. intros w. by rewrite fetch_keeps_world. Qed.

Lemma quiet_cache self : quiet (Query.cache (Obj := Obj) self).
Proof. intros w. by rewrite cache_keeps_world. Qed.

Lemma quiet_iter self : quiet (Query.__iter__ (Obj := Obj) self).
Proof. intros w. by rewrite iter_keeps_world. Qed.

Lemma quiet_getitem self k : quiet (Query.__getitem__ (Obj := Obj) self k).
Proof.
  unfold Query.__getitem__. destruct k as [i|s|name]; [| |apply quiet_raise].
  - destruct (0 <=? i); [|apply quiet_raise].
    apply quiet_bind; [apply quiet_deref|]. intros q.
    destruct (_result_cache q); [repeat quiet_step|].
    apply quiet_bind; [apply quiet_clone|]. intros c.
    apply quiet_bind; [apply quiet_set_limits|]. intros _.
    apply quiet_bind; [apply quiet_fetch|]. intros _.
    apply quiet_bind; [apply quiet_cache|]. intros l. repeat quiet_step.
  - destruct (non_negative (start s) && non_negative (stop s)); [|apply quiet_raise].
    apply quiet_bind; [apply quiet_deref|]. intros q.
    destruct (_result_cache q); [repeat quiet_step|].
    apply quiet_bind; [apply quiet_clone|]. intros c.
    apply quiet_bind; [apply quiet_set_limits|]. intros _.
    destruct (truthy (step s)); [|apply quiet_ret].
    apply quiet_bind; [apply quiet_iter|]. intros l. repeat quiet_step.
Qed.

Lemma quiet_filter self kwargs : quiet (Query.filter (Obj := Obj) self kwargs).
Proof.
  unfold Query.filter. apply quiet_bind; [apply quiet_deref|]. intros q.
  destruct (Query.is_sliced q); [apply quiet_ret|].
  apply quiet_bind; [apply quiet_clone|]. intros c. repeat quiet_step.
Qed.

(** X9.  No method of [Query] ever reaches the remote resource: subscripts,
    [get], [count], iteration, [__len__], [__bool__], [__repr__], [filter],
    [exclude] and [order_by] all leave the log of remote calls exactly as it
    was, for every receiver, argument and world. *)
Theorem query_methods_never_call_the_resource w self k kwargs fields :
  calls (Query.__getitem__ self k w).2 = calls w
  /\ calls (Query.get self kwargs w).2 = calls w
  /\ calls (Query.count self w).2 = calls w
  /\ calls (Query.__iter__ self w).2 = calls w
  /\ calls (Query.__len__ self w).2 = calls w
  /\ calls (Query.__bool__ self w).2 = calls w
  /\ calls (Query.__repr__ self w).2 = calls w
  /\ calls (Query.filter self kwargs w).2 = calls w
  /\ calls (Query.exclude self kwargs w).2 = calls w
  /\ calls (Query.order_by self fields w).2 = calls w.
Proof.
  repeat split.
  - apply quiet_getitem.
  - revert w. change (quiet (Query.get (Obj := Obj) self kwargs)). unfold Query.get.
    apply quiet_bind; [apply quiet_filter|]. intros v.
    apply quiet_bind.
    { destruct v; [apply quiet_iter|apply quiet_raise]. }
    intros [|x [|y l]]; [| apply quiet_ret |];
      (apply quiet_bind; [apply quiet_deref|]; intros q;
       destruct (model_class q); apply quiet_raise).
  - revert w. change (quiet (Query.count (Obj := Obj) self)). unfold Query.count.
    apply quiet_bind; [apply quiet_deref|]. intros q.
    destruct (_count q); [apply quiet_ret|apply quiet_after_no_attribute].
  - apply quiet_iter.
  - revert w. change (quiet (Query.__len__ (Obj := Obj) self)). unfold Query.__len__.
    apply quiet_bind; [apply quiet_fetch|]. intros _.
    apply quiet_bind; [apply quiet_cache|]. intros l. apply quiet_ret.
  - revert w. change (quiet (Query.__bool__ (Obj := Obj) self)). unfold Query.__bool__.
    apply quiet_bind; [apply quiet_fetch|]. intros _.
    apply quiet_bind; [apply quiet_cache|]. intros l. apply quiet_ret.
  - revert w. change (quiet (Query.__repr__ (Obj := Obj) self)). unfold Query.__repr__.
    apply quiet_bind; [apply quiet_getitem|]. intros got.
    apply quiet_bind.
    { destruct got; [apply quiet_raise|apply quiet_iter|apply quiet_ret]. }
    intros data. destruct (REPR_OUTPUT_SIZE <? Z.of_nat (length data)); apply quiet_ret.
  - apply quiet_filter.
  - revert w. change (quiet (Query.exclude (Obj := Obj) self kwargs)).
    unfold Query.exclude. apply quiet_bind; [apply quiet_deref|]. intros q.
    destruct (Query.is_sliced q); [apply quiet_ret|].
    apply quiet_bind; [apply quiet_clone|]. intros c. repeat quiet_step.
  - revert w. change (quiet (Query.order_by (Obj := Obj) self fields)).
    unfold Query.order_by. apply quiet_bind; [apply quiet_deref|]. intros q.
    destruct (Query.is_sliced q); [apply quiet_ret|].
    apply quiet_bind; [apply quiet_clone|]. intros c. repeat quiet_step.
Qed.

End MoreQuery.

Section MoreQuery2.
Context {Obj : Type}.
Implicit Types (w : world Obj) (q : Query Obj) (self : ref).

Lemma getitem_cached_slice w self q l st sp :
  heap w !! self = Some q -> _result_cache q = Some l ->
  non_negative st = true -> non_negative sp = true ->
  Query.__getitem__ self (KSlice {| start := st; stop := sp; step := None |}) w
  = (Return (Items (take (from_option Z.to_nat (length l) sp
                          - from_option Z.to_nat 0%nat st)
                      (drop (from_option Z.to_nat 0%nat st) l))), w).
Proof.
  intros H Hc Hst Hsp. unfold Query.__getitem__. cbn [start stop step].
  rewrite Hst, Hsp. cbn [andb].
  unfold bind at 1. rewrite (deref_some _ _ _ H), Hc.
  unfold bind, lift, ret. by rewrite (list_slice_plain l st sp Hst Hsp).
Qed.

(** X10.  On a materialised query a slice without step is answered from the
    cache, without a request: it is the cached list with [start] elements
    dropped and at most [stop - start] kept, an absent start standing for 0
    and an absent stop for the length. *)
Theorem cached_slice_is_take_drop w self q l st sp :
  heap w !! self = Some q -> _result_cache q = Some l ->
  non_negative st = true -> non_negative sp = true ->
  Query.__getitem__ self (KSlice {| start := st; stop := sp; step := None |}) w
  = (Return (Items (take (from_option Z.to_nat (length l) sp
                          - from_option Z.to_nat 0%nat st)
                      (drop (from_option Z.to_nat 0%nat st) l))), w).
Proof. apply getitem_cached_slice. Qed.

(** X11.  A slice with step 0 raises [ValueError] on a materialised query,
    but on an unmaterialised one the step counts as absent and the result is
    a lazy clone with the window of the slice. *)
Theorem zero_step_depends_on_cache w self q a b :
  heap w !! self = Some q -> 0 <= a -> 0 <= b ->
  (forall l, _result_cache q = Some l ->
     Query.__getitem__ self (KSlice {| start := Some a; stop := Some b; step := Some 0 |}) w
     = (Raise (ValueError "slice step cannot be zero"), w))
  /\ (forall fs, _result_cache q = None -> _order_fields q = PyList fs ->
        Query.__getitem__ self
          (KSlice {| start := Some a; stop := Some b; step := Some 0 |}) w
        = (Return (Lazy (length (heap w))),
           {| heap := heap w ++ [set_limit (Some (b - a)) (set_offset (Some a) (cloned q))];
              calls := calls w |})).
Proof.
  intros H Ha Hb. split.
  - intros l Hc. unfold Query.__getitem__. cbn [start stop step]. cbn [non_negative].
    destruct (Z.leb_spec 0 a); [|lia]. destruct (Z.leb_spec 0 b); [|lia].
    cbn [andb].
    unfold bind at 1. rewrite (deref_some _ _ _ H), Hc.
    unfold bind, lift, ret. by rewrite list_slice_zero_step.
  - intros fs Hc Hf. by apply (slice_lazy _ _ q fs).
Qed.

(** X12.  A slice with a non-zero step on an unmaterialised query makes the
    clone with the window of the slice and then tries to fetch it: the call
    raises the [AttributeError] of the fetch, no request is sent and the
    receiver is unchanged. *)
Theorem stepped_slice_raises_at_the_fetch w self q fs a b s :
  heap w !! self = Some q -> _result_cache q = None -> _order_fields q = PyList fs ->
  0 <= a -> 0 <= b -> s <> 0 ->
  Query.__getitem__ self (KSlice {| start := Some a; stop := Some b; step := Some s |}) w
  = (Raise (AttributeError ("'" +:+ Iterable.class_name (_iterable_class q)
                            +:+ "' object has no attribute '_resource'")),
     {| heap := heap w ++ [set_limit (Some (b - a)) (set_offset (Some a) (cloned q))];
        calls := calls w |}).
Proof.
  intros H Hc Hf Ha Hb Hs.
  unfold Query.__getitem__. cbn [start stop step].
  cbn [non_negative].
  destruct (Z.leb_spec 0 a); [|lia]. destruct (Z.leb_spec 0 b); [|lia].
  cbn [andb].
  unfold bind at 1. rewrite (deref_some _ _ _ H), Hc.
  unfold bind at 1. rewrite (clone_of_list _ _ _ _ H Hf).
  unfold bind at 1. rewrite set_limits_both. cbn [heap calls].
  rewrite !alter_fresh.
  unfold truthy. destruct (Z.eqb_spec s 0); [lia|]. cbn [negb].
  set (c := set_limit (Some (b - a)) (set_offset (Some a) (cloned q))).
  unfold bind at 1.
  by rewrite (iter_unbound {| heap := heap w ++ [c]; calls := calls w |}
                (length (heap w)) c (lookup_fresh _ _) eq_refl).
Qed.

(** X13.  [__repr__] of a materialised query sends no request and shows all
    cached objects when there are at most 20, and otherwise the first 20
    followed by the truncation marker. *)
Theorem repr_of_materialised_query w self q l :
  heap w !! self = Some q -> _result_cache q = Some l ->
  Query.__repr__ self w
  = (Return (if decide (length l <= 20)%nat then Shown <$> l
             else (Shown <$> take 20 l) ++ [Truncated]), w).
Proof.
  intros H Hc. unfold Query.__repr__. unfold bind at 1.
  rewrite (getitem_cached_slice w self q l None (Some (REPR_OUTPUT_SIZE + 1))
             H Hc eq_refl eq_refl).
  cbn [from_option]. rewrite drop_0.
  change (Z.to_nat (REPR_OUTPUT_SIZE + 1) - 0)%nat with 21%nat.
  unfold bind, ret. unfold REPR_OUTPUT_SIZE.
  destruct (decide (length l <= 20)%nat) as [Hle|Hgt].
  - rewrite take_ge by lia. by destruct (Z.ltb_spec 20 (Z.of_nat (length l))); [lia|].
  - rewrite length_take. destruct (Z.ltb_spec 20 (Z.of_nat (21 `min` length l)%nat)); [|lia].
    by rewrite removelast_take by lia.
Qed.

(** X14.  [__repr__] of an unmaterialised query always raises, without a
    request and without changing the query: it takes the slice [[:21]], whose
    start is absent. *)
Theorem repr_of_unmaterialised_query_raises w self q :
  heap w !! self = Some q -> _result_cache q = None ->
  exists e w1,
    Query.__repr__ self w = (Raise e, w1)
    /\ calls w1 = calls w /\ heap w1 !! self = Some q.
Proof.
  intros H Hc. unfold Query.__repr__. unfold bind at 1.
  unfold Query.__getitem__. cbn [start stop step non_negative].
  change (0 <=? REPR_OUTPUT_SIZE + 1) with true. cbn [andb].
  unfold bind at 1. rewrite (deref_some _ _ _ H), Hc.
  unfold bind at 1. destruct (_order_fields q) as [fs|fs] eqn:Hf.
  - rewrite (clone_of_list _ _ _ _ H Hf). unfold bind at 1.
    destruct (set_limits_absent {| heap := heap w ++ [cloned q]; calls := calls w |}
                (length (heap w)) None (Some (REPR_OUTPUT_SIZE + 1)))
      as [msg ->]; [by left|].
    eexists _, _. split; [reflexivity|]. split; [done|]. simpl.
    rewrite list_lookup_alter_ne by (apply lookup_lt_Some in H; lia).
    by apply lookup_old.
  - destruct (clone_of_tuple _ _ _ _ H Hf) as [junk ->].
    eexists _, _. split; [reflexivity|]. split; [done|]. by apply lookup_old.
Qed.

(** X15.  Slicing a lazy slice again does not compose the two windows: the
    second clone has the offset and limit of the second slice alone, with the
    filters and excludes of the original, and no request is sent. *)
Theorem slice_of_slice_replaces_window w self q fs a b c d :
  heap w !! self = Some q -> _result_cache q = None -> _order_fields q = PyList fs ->
  0 <= a -> 0 <= b -> 0 <= c -> 0 <= d ->
  exists w1 w2 q2,
    Query.__getitem__ self (KSlice {| start := Some a; stop := Some b; step := None |}) w
    = (Return (Lazy (length (heap w))), w1)
    /\ Query.__getitem__ (length (heap w))
         (KSlice {| start := Some c; stop := Some d; step := None |}) w1
       = (Return (Lazy (S (length (heap w)))), w2)
    /\ heap w2 !! S (length (heap w)) = Some q2
    /\ _offset q2 = Some c /\ _limit q2 = Some (d - c)
    /\ _filters q2 = _filters q /\ _excludes q2 = _excludes q
    /\ calls w2 = calls w.
Proof.
  intros H Hc Hf Ha Hb Hc' Hd.
  set (q1 := set_limit (Some (b - a)) (set_offset (Some a) (cloned q))).
  set (w1 := {| heap := heap w ++ [q1]; calls := calls w |}).
  assert (Hlk : heap w1 !! length (heap w) = Some q1) by apply lookup_fresh.
  exists w1. eexists _, _.
  split; [by apply (slice_lazy _ _ q fs)|].
  split.
  - rewrite (slice_lazy w1 (length (heap w)) q1 fs c d None Hlk eq_refl Hf Hc' Hd eq_refl).
    cbn [heap w1]. by rewrite length_app, Nat.add_1_r.
  - cbn [heap calls w1]. split.
    { replace (S (length (heap w))) with (length (heap w ++ [q1]))
        by (rewrite length_app; simpl; lia).
      apply lookup_fresh. }
    done.
Qed.

(** X16.  Two successive [filter] calls accumulate: the final filter map is
    the second arguments over the first over the receiver's map, the
    intermediate clone keeps its own map and the receiver is unchanged. *)
Theorem filters_accumulate w self q a b fs p1 p2 :
  heap w !! self = Some q ->
  _limit q = Some a -> _offset q = Some b -> _order_fields q = PyList fs ->
  exists w1 w2 q2,
    Query.filter self p1 w = (Return (Clone (length (heap w))), w1)
    /\ Query.filter (length (heap w)) p2 w1 = (Return (Clone (S (length (heap w)))), w2)
    /\ heap w2 !! S (length (heap w)) = Some q2
    /\ _filters q2 = p2 ∪ (p1 ∪ _filters q)
    /\ (forall key, _filters q2 !! key
                    = match p2 !! key with
                      | Some v => Some v
                      | None => match p1 !! key with
                                | Some v => Some v
                                | None => _filters q !! key
                                end
                      end)
    /\ heap w2 !! self = Some q
    /\ (exists q1, heap w2 !! length (heap w) = Some q1 /\ _filters q1 = p1 ∪ _filters q).
Proof.
  intros H Hl Ho Hf.
  set (q1 := set_filters (p1 ∪ _filters q) (cloned q)).
  set (w1 := {| heap := heap w ++ [q1]; calls := calls w |}).
  assert (Hlk : heap w1 !! length (heap w) = Some q1) by apply lookup_fresh.
  exists w1. eexists _, _.
  split; [by apply (filter_clone _ _ q a b fs)|].
  split.
  - rewrite (filter_clone w1 (length (heap w)) q1 a b fs p2 Hlk Hl Ho Hf).
    cbn [heap w1]. by rewrite length_app, Nat.add_1_r.
  - cbn [heap calls w1].
    split.
    { replace (S (length (heap w))) with (length (heap w ++ [q1]))
        by (rewrite length_app; simpl; lia).
      apply lookup_fresh. }
    split; [done|]. split.
    { intros key. simpl. rewrite !lookup_union.
      by destruct (p2 !! key), (p1 !! key), (_filters q !! key). }
    split; [by do 2 apply lookup_old|].
    exists q1. split; [|done]. apply lookup_old, lookup_fresh.
Qed.

(** X17.  [q[k]] on an unmaterialised query whose order fields are still a
    list makes a clone with offset [k] and limit 1 and then fails to fetch
    it: the call raises [AttributeError] for the missing [_resource], not
    [IndexError], sends nothing and leaves the receiver unchanged. *)
Theorem index_raises_at_the_fetch w self q fs k :
  heap w !! self = Some q -> _result_cache q = None -> _order_fields q = PyList fs ->
  0 <= k ->
  exists c,
    Query.__getitem__ self (KInt k) w
    = (Raise (AttributeError ("'" +:+ Iterable.class_name (_iterable_class q)
                              +:+ "' object has no attribute '_resource'")),
       {| heap := heap w ++ [c]; calls := calls w |})
    /\ _offset c = Some k /\ _limit c = Some 1 /\ _result_cache c = None
    /\ _filters c = _filters q /\ _excludes c = _excludes q.
Proof.
  intros H Hc Hf Hk. eexists. split; [by apply (index_unbound _ _ q fs)|]. done.
Qed.

(** X18.  [get] on a query with a limit and an offset makes the filtered
    clone and then fails to fetch it: the call raises [AttributeError] for
    the missing [_resource], never [DoesNotExist] or
    [MultipleObjectsReturned], sends nothing and leaves the receiver
    unchanged. *)
Theorem get_raises_at_the_fetch w self q a b fs kwargs :
  heap w !! self = Some q ->
  _limit q = Some a -> _offset q = Some b -> _order_fields q = PyList fs ->
  exists c,
    Query.get self kwargs w
    = (Raise (AttributeError ("'" +:+ Iterable.class_name (_iterable_class q)
                              +:+ "' object has no attribute '_resource'")),
       {| heap := heap w ++ [c]; calls := calls w |})
    /\ _filters c = kwargs ∪ _filters q
    /\ heap (Query.get self kwargs w).2 !! self = Some q.
Proof.
  intros H Hl Ho Hf. eexists.
  rewrite (get_unbound _ _ _ _ _ _ _ H Hl Ho Hf).
  split; [reflexivity|]. split; [done|]. by apply lookup_old.
Qed.

(** X1.  [exclude] on a query with a limit and an offset: the result is a new
    object whose exclude map is the receiver's updated with the arguments (the
    new keys win), with the same filters, limit and offset and neither a
    result cache nor a cached count; the receiver and the call log stay as
    they were. *)
Theorem exclude_frame_and_merge w self q a b fs kwargs :
  heap w !! self = Some q ->
  _limit q = Some a -> _offset q = Some b -> _order_fields q = PyList fs ->
  exists w1 c,
    Query.exclude self kwargs w = (Return (Clone (length (heap w))), w1)
    /\ heap w1 !! length (heap w) = Some c
    /\ heap w1 !! self = Some q
    /\ calls w1 = calls w
    /\ (forall key, _excludes c !! key
                    = match kwargs !! key with
                      | Some v => Some v
                      | None => _excludes q !! key
                      end)
    /\ _filters c = _filters q /\ _limit c = _limit q /\ _offset c = _offset q
    /\ _result_cache c = None /\ _count c = None.
Proof.
  intros H Hl Ho Hf. eexists _, _.
  split; [by apply (exclude_clone _ _ q a b fs)|]. cbn [heap calls].
  split; [apply lookup_fresh|]. split; [by apply lookup_old|]. split; [done|].
  split; [|done]. intros key. simpl. rewrite lookup_union.
  by destruct (kwargs !! key), (_excludes q !! key).
Qed.

(** X2.  [order_by] stores its arguments as a tuple and keeps filters,
    excludes, limit and offset; every later [filter], [exclude], [order_by]
    and [get] on the ordered query raises [AttributeError], because [_clone]
    asks the tuple for [copy]. *)
Theorem ordered_query_cannot_be_narrowed w self q a b fs fields kwargs :
  heap w !! self = Some q ->
  _limit q = Some a -> _offset q = Some b -> _order_fields q = PyList fs ->
  exists w1 o,
    Query.order_by self fields w = (Return (Clone (length (heap w))), w1)
    /\ heap w1 !! length (heap w) = Some o
    /\ _order_fields o = PyTuple fields
    /\ _filters o = _filters q /\ _excludes o = _excludes q
    /\ _limit o = _limit q /\ _offset o = _offset q
    /\ (Query.filter (length (heap w)) kwargs w1).1
       = Raise (AttributeError "'tuple' object has no attribute 'copy'")
    /\ (Query.exclude (length (heap w)) kwargs w1).1
       = Raise (AttributeError "'tuple' object has no attribute 'copy'")
    /\ (Query.order_by (length (heap w)) fields w1).1
       = Raise (AttributeError "'tuple' object has no attribute 'copy'")
    /\ (Query.get (length (heap w)) kwargs w1).1
       = Raise (AttributeError "'tuple' object has no attribute 'copy'").
Proof.
  intros H Hl Ho Hf. eexists _, _.
  split; [by apply (order_by_clone _ _ q a b fs)|].
  set (o := set_order_fields (PyTuple fields) (cloned q)).
  set (w1 := {| heap := heap w ++ [o]; calls := calls w |}).
  assert (Hlk : heap w1 !! length (heap w) = Some o) by apply lookup_fresh.
  split; [done|]. do 5 (split; [done|]).
  assert (Hs : Query.is_sliced o = false)
    by (unfold Query.is_sliced; simpl; by rewrite Hl, Ho).
  destruct (clone_of_tuple w1 (length (heap w)) o fields Hlk eq_refl) as [junk Hcl].
  unfold Query.get, Query.filter, Query.exclude, Query.order_by.
  repeat split; unfold bind; rewrite (deref_some _ _ _ Hlk), Hs, Hcl; done.
Qed.
End MoreQuery2.

(** ** Bulk operations and the manager's shortcuts *)

Section MoreManager.
Context {Obj : Type} `{!PyObject Obj}.
Implicit Types (w : world Obj) (self : Manager Obj).

(** X20.  [Manager.filter] and [Manager.get] raise [TypeError] for every
    manager and every predicate set, leaving the world unchanged: both start
    with [Query(manager=self)]. *)
Theorem manager_filter_and_get_raise self kwargs w :
  Manager.filter self kwargs w
  = (Raise (TypeError "__init__() got an unexpected keyword argument 'manager'"), w)
  /\ Manager.get self kwargs w
     = (Raise (TypeError "__init__() got an unexpected keyword argument 'manager'"), w).
Proof. split; [apply manager_filter_raises|apply manager_get_raises]. Qed.

(** X21.  [bulk_create] never touches the query store and logs at most one
    call, and only after the argument was found to be a list of model
    instances and every instance was serialised; when serialising an instance
    fails, that error is raised and nothing is sent. *)
Theorem bulk_create_calls_at_most_once self instances w :
  heap (Manager.bulk_create self instances w).2 = heap w
  /\ (calls (Manager.bulk_create self instances w).2 = calls w
      \/ exists l data_list,
           instances = Manager.AList l
           /\ Forall (fun o => isinstance (_model self) o = true) l
           /\ map_outcome (Manager.to_dict self) l = Return data_list
           /\ calls (Manager.bulk_create self instances w).2
              = calls w ++ [CallBulkCreate data_list])
  /\ (forall l e,
        instances = Manager.AList l ->
        Forall (fun o => isinstance (_model self) o = true) l ->
        map_outcome (Manager.to_dict self) l = Raise e ->
        Manager.bulk_create self instances w = (Raise e, instances, w)).
Proof.
  unfold Manager.bulk_create, Manager.bulk_create_body. destruct instances as [l|o].
  2:{ split; [done|]. split; [by left|]. by intros l e. }
  destruct (forallb (isinstance (_model self)) l) eqn:Hall.
  2:{ split; [done|]. split; [by left|]. intros l' e [= <-] Hl.
      apply forallb_Forall in Hl. congruence. }
  apply forallb_Forall in Hall. unfold bind, lift, remote.
  destruct (map_outcome (Manager.to_dict self) l) as [dl|e] eqn:Hd.
  - split; [by destruct (remote_bulk_create dl)|]. split.
    + right. exists l, dl. do 3 (split; [done|]). by destruct (remote_bulk_create dl).
    + intros l' e [= <-] _ He. congruence.
  - split; [done|]. split; [by left|]. intros l' e' [= <-] _ He. congruence.
Qed.

Lemma replace_from_length self (m : gmap pyval Row) n i (l : list Obj) :
  length (Manager.replace_from self m n i l).2 = length l.
Proof.
  revert i l. induction n as [|n IH]; intros i l; simpl; [done|].
  destruct (l !! i) as [obj|]; [|done].
  destruct (getattr obj (_unique_field self)) as [pk|e]; [|done].
  destruct (m !! pk) as [item|]; [|done].
  destruct (Manager.from_dict self item) as [u|e]; [|done].
  by rewrite IH, length_insert.
Qed.

(** X22.  Whatever happens, [bulk_update] leaves the [instances] list with
    the length it had. *)
Theorem bulk_update_keeps_length self instances update_fields w :
  length (Manager.bulk_update self instances update_fields w).1.2 = length instances.
Proof.
  unfold Manager.bulk_update.
  destruct (Manager.bulk_update_exchange self instances update_fields w) as [[m|e] w'];
    [|done].
  simpl. apply replace_from_length.
Qed.

Lemma replace_from_prefix self (m : gmap pyval Row) done good news tail k :
  Forall2 (fun obj new =>
             exists pk item,
               getattr obj (_unique_field self) = Return pk
               /\ m !! pk = Some item
               /\ construct (_model self) item = Return new) good news ->
  Manager.replace_from self m (length good + k) (length done) (done ++ good ++ tail)
  = Manager.replace_from self m k (length done + length good) (done ++ news ++ tail).
Proof.
  intros H. revert done. induction H as [|obj new good news Hx _ IH]; intros done.
  - simpl. by rewrite Nat.add_0_r.
  - destruct Hx as (pk & item & Hpk & Hitem & Hnew). simpl.
    rewrite list_lookup_middle by done. rewrite Hpk, Hitem.
    unfold Manager.from_dict. rewrite Hnew. rewrite insert_middle.
    replace (S (length done)) with (length (done ++ [new]))
      by (rewrite length_app; simpl; lia).
    rewrite (cons_middle new done (good ++ tail)), (cons_middle new done (news ++ tail)).
    rewrite !app_assoc. rewrite <- (app_assoc (done ++ [new]) good tail).
    rewrite IH. rewrite length_app. simpl.
    rewrite <- !app_assoc. f_equal. lia.
Qed.

(** X23.  [bulk_update] is not all-or-nothing: when the answer has records
    for the first instances but none for the next one, the call raises
    [KeyError] with that instance's unique-field value, the earlier positions
    already hold their new instances and the later ones are untouched. *)
Theorem bulk_update_stops_at_first_missing_record self update_fields w
    good bad rest news response_map pk w' :
  Manager.bulk_update_exchange self (good ++ bad :: rest) update_fields w
  = (Return response_map, w') ->
  Forall2 (fun obj new =>
             exists pk item,
               getattr obj (_unique_field self) = Return pk
               /\ response_map !! pk = Some item
               /\ construct (_model self) item = Return new) good news ->
  getattr bad (_unique_field self) = Return pk ->
  response_map !! pk = None ->
  Manager.bulk_update self (good ++ bad :: rest) update_fields w
  = (Raise (KeyError pk), news ++ bad :: rest, w').
Proof.
  intros Hx Hgood Hpk Hnone. unfold Manager.bulk_update. rewrite Hx. f_equal.
  rewrite length_app. simpl length.
  rewrite (replace_from_prefix self response_map [] good news (bad :: rest) _ Hgood).
  simpl. rewrite list_lookup_middle by (apply Forall2_length in Hgood; lia).
  by rewrite Hpk, Hnone.
Qed.

(** X24.  When some instance's serialised form lacks one of the
    [update_fields], [bulk_update] raises [KeyError] with such a field name,
    sends nothing and leaves [instances] as it was. *)
Theorem bulk_update_missing_field_sends_nothing self instances update_fields w data_list :
  map_outcome (Manager.to_dict self) instances = Return data_list ->
  (exists d key, d ∈ data_list /\ key ∈ update_fields /\ d !! key = None) ->
  exists d key,
    d ∈ data_list /\ key ∈ update_fields /\ d !! key = None
    /\ Manager.bulk_update self instances update_fields w
       = (Raise (KeyError (VStr key)), instances, w).
Proof.
  intros Hd (d0 & k0 & Hin0 & Hk0 & Hn0).
  unfold Manager.bulk_update, Manager.bulk_update_exchange, bind, lift. rewrite Hd.
  destruct (map_outcome (fun d => Manager.patch_of d update_fields ∅) data_list)
    as [pl|e] eqn:Hp.
  - exfalso. apply map_outcome_Forall2 in Hp.
    apply list_elem_of_lookup in Hin0 as [i Hi].
    destruct (Forall2_lookup_l _ _ _ _ _ Hp Hi) as (p & _ & Hpatch).
    apply patch_of_lookup in Hpatch as [Hall _].
    destruct (Hall k0 Hk0) as [v Hv]. congruence.
  - apply map_outcome_raises in Hp as (d & Hin & Hraise).
    apply patch_of_raises_key_error in Hraise as (key & -> & Hkey & Hnone).
    by exists d, key.
Qed.

(** X25.  When the answer to a bulk update holds several records with the
    same unique-field value, the response map keeps the last of them. *)
Theorem response_map_last_duplicate_wins unique_field pre item post m (pk : pyval) :
  Manager.response_map_of unique_field (pre ++ item :: post) ∅ = Return m ->
  item !! unique_field = Some pk ->
  Forall (fun r => r !! unique_field <> Some pk) post ->
  m !! pk = Some item.
Proof.
  intros Hm Hitem Hpost.
  apply response_map_of_app in Hm as (mid & _ & Hm). simpl in Hm. rewrite Hitem in Hm.
  rewrite (response_map_of_keeps _ _ _ _ pk Hm Hpost). apply lookup_insert_eq.
Qed.

End MoreManager.

(** ** Closed evaluations of the further properties *)

Lemma exclude_frame_and_merge_witness :
  exists w1 c,
    Query.exclude 0 by_name (one sliced) = (Return (Clone 1), w1)
    /\ heap w1 !! 1%nat = Some c
    /\ heap w1 !! 0%nat = Some sliced
    /\ calls w1 = []
    /\ (forall key, _excludes c !! key
                    = match by_name !! key with
                      | Some v => Some v
                      | None => _excludes sliced !! key
                      end)
    /\ _filters c = _filters sliced /\ _limit c = _limit sliced
    /\ _offset c = _offset sliced
    /\ _result_cache c = None /\ _count c = None.
Proof.
  exact (exclude_frame_and_merge (one sliced) 0 sliced 3 2 [] by_name
           eq_refl eq_refl eq_refl eq_refl).
Defined.

Lemma ordered_query_cannot_be_narrowed_witness :
  exists w1 o,
    Query.order_by 0 ["name"] (one sliced) = (Return (Clone 1), w1)
    /\ heap w1 !! 1%nat = Some o
    /\ _order_fields o = PyTuple ["name"]
    /\ _filters o = _filters sliced /\ _excludes o = _excludes sliced
    /\ _limit o = _limit sliced /\ _offset o = _offset sliced
    /\ (Query.filter 1 by_name w1).1
       = Raise (AttributeError "'tuple' object has no attribute 'copy'")
    /\ (Query.exclude 1 by_name w1).1
       = Raise (AttributeError "'tuple' object has no attribute 'copy'")
    /\ (Query.order_by 1 ["name"] w1).1
       = Raise (AttributeError "'tuple' object has no attribute 'copy'")
    /\ (Query.get 1 by_name w1).1
       = Raise (AttributeError "'tuple' object has no attribute 'copy'").
Proof.
  exact (ordered_query_cannot_be_narrowed (one sliced) 0 sliced
           3 2 [] ["name"] by_name eq_refl eq_refl eq_refl eq_refl).
Defined.

Lemma fetch_raises_before_any_request_witness :
  Query._fetch_cache 0 (one sliced)
  = (Raise (AttributeError "'ModelIterable' object has no attribute '_resource'"),
     one sliced)
  /\ Query._query_iterator 0 (one sliced)
     = (Raise (AttributeError "'ModelIterable' object has no attribute '_resource'"),
        one sliced).
Proof.
  exact (fetch_raises_before_any_request (one sliced) 0 sliced eq_refl eq_refl).
Defined.

Lemma materialised_query_is_served_from_cache_witness :
  Query.__iter__ 0 (one cached) = (Return (job_of <$> table), one cached)
  /\ Query.__len__ 0 (one cached) = (Return (length (job_of <$> table)), one cached)
  /\ Query.__bool__ 0 (one cached) = (Return true, one cached).
Proof.
  exact (materialised_query_is_served_from_cache (one cached) 0 cached
           [job_of (record 1 "a" "READY"); job_of (record 2 "b" "READY");
            job_of (record 3 "c" "RUNNING"); job_of (record 4 "d" "RUNNING");
            job_of (record 5 "e" "DONE")] eq_refl eq_refl).
Defined.

Lemma consuming_unmaterialised_query_raises_witness :
  Query.__iter__ 0 (one fresh)
  = (Raise (AttributeError "'ModelIterable' object has no attribute '_resource'"),
     one fresh)
  /\ Query.__len__ 0 (one fresh)
     = (Raise (AttributeError "'ModelIterable' object has no attribute '_resource'"),
        one fresh)
  /\ Query.__bool__ 0 (one fresh)
     = (Raise (AttributeError "'ModelIterable' object has no attribute '_resource'"),
        one fresh).
Proof.
  exact (consuming_unmaterialised_query_raises (one fresh) 0 fresh eq_refl eq_refl).
Defined.

Lemma subscript_rejects_bad_index_witness :
  Query.__getitem__ 0 (KInt (-1)) (one fresh)
  = (Raise (AssertionError "Negative indexing is not supported."), one fresh)
  /\ Query.__getitem__ 0
       (KSlice {| start := Some (-2); stop := None; step := None |}) (one fresh)
     = (Raise (AssertionError "Negative indexing is not supported."), one fresh).
Proof.
  split.
  - apply (proj1 (proj2 (subscript_rejects_bad_index
                           (one fresh) 0)) (-1)). lia.
  - apply (proj2 (proj2 (subscript_rejects_bad_index
                           (one fresh) 0))
             {| start := Some (-2); stop := None; step := None |}).
    left. exists (-2). split; [reflexivity|lia].
Defined.

Lemma subscript_never_changes_receiver_witness :
  heap (Query.__getitem__ 0 (KInt 0) (one fresh)).2 !! 0%nat
  = Some fresh.
Proof.
  exact (subscript_never_changes_receiver (one fresh) 0 fresh
           (KInt 0) eq_refl).
Defined.

Lemma cached_slice_is_take_drop_witness :
  Query.__getitem__ 0
    (KSlice {| start := Some 1; stop := Some 3; step := None |}) (one cached)
  = (Return (Items (take (3 - 1) (drop 1 (job_of <$> table)))), one cached).
Proof.
  exact (cached_slice_is_take_drop (one cached) 0 cached
           (job_of <$> table) (Some 1) (Some 3) eq_refl eq_refl eq_refl eq_refl).
Defined.

Lemma zero_step_depends_on_cache_witness :
  Query.__getitem__ 0
    (KSlice {| start := Some 0; stop := Some 3; step := Some 0 |}) (one cached)
  = (Raise (ValueError "slice step cannot be zero"), one cached)
  /\ Query.__getitem__ 0
       (KSlice {| start := Some 0; stop := Some 3; step := Some 0 |}) (one fresh)
     = (Return (Lazy (length (heap (one fresh)))),
        {| heap := heap (one fresh)
                   ++ [set_limit (Some (3 - 0)) (set_offset (Some 0) (cloned fresh))];
           calls := calls (one fresh) |}).
Proof.
  split.
  - exact (proj1 (zero_step_depends_on_cache (one cached) 0
                    cached 0 3 eq_refl (Z.le_refl 0) ltac:(lia))
             (job_of <$> table) eq_refl).
  - exact (proj2 (zero_step_depends_on_cache (one fresh) 0
                    fresh 0 3 eq_refl (Z.le_refl 0) ltac:(lia))
             [] eq_refl eq_refl).
Defined.

Lemma stepped_slice_raises_at_the_fetch_witness :
  Query.__getitem__ 0 (KSlice {| start := Some 0; stop := Some 5; step := Some 2 |})
    (one fresh)
  = (Raise (AttributeError "'ModelIterable' object has no attribute '_resource'"),
     {| heap := heap (one fresh)
                ++ [set_limit (Some (5 - 0)) (set_offset (Some 0) (cloned fresh))];
        calls := calls (one fresh) |}).
Proof.
  apply (stepped_slice_raises_at_the_fetch (one fresh) 0 fresh [] 0 5 2);
    try reflexivity; lia.
Defined.

Lemma repr_of_materialised_query_witness :
  Query.__repr__ 0 (one cached)
  = (Return (if decide (length (job_of <$> table) <= 20)%nat
             then Shown <$> (job_of <$> table)
             else (Shown <$> take 20 (job_of <$> table)) ++ [Truncated]), one cached).
Proof.
  exact (repr_of_materialised_query (one cached) 0 cached
           (job_of <$> table) eq_refl eq_refl).
Defined.

Lemma repr_of_unmaterialised_query_raises_witness :
  exists e w1,
    Query.__repr__ 0 (one fresh) = (Raise e, w1)
    /\ calls w1 = calls (one fresh) /\ heap w1 !! 0%nat = Some fresh.
Proof.
  exact (repr_of_unmaterialised_query_raises (one fresh) 0 fresh
           eq_refl eq_refl).
Defined.

Lemma slice_of_slice_replaces_window_witness :
  exists w1 w2 q2,
    Query.__getitem__ 0
      (KSlice {| start := Some 2; stop := Some 5; step := None |}) (one fresh)
    = (Return (Lazy 1%nat), w1)
    /\ Query.__getitem__ 1
         (KSlice {| start := Some 1; stop := Some 2; step := None |}) w1
       = (Return (Lazy 2%nat), w2)
    /\ heap w2 !! 2%nat = Some q2
    /\ _offset q2 = Some 1 /\ _limit q2 = Some (2 - 1)
    /\ _filters q2 = _filters fresh /\ _excludes q2 = _excludes fresh
    /\ calls w2 = calls (one fresh).
Proof.
  apply (slice_of_slice_replaces_window (one fresh) 0 fresh []
           2 5 1 2); try reflexivity; lia.
Defined.

Lemma filters_accumulate_witness :
  exists w1 w2 q2,
    Query.filter 0 by_name (one sliced) = (Return (Clone 1%nat), w1)
    /\ Query.filter 1 (name_patch "b") w1 = (Return (Clone 2%nat), w2)
    /\ heap w2 !! 2%nat = Some q2
    /\ _filters q2 = name_patch "b" ∪ (by_name ∪ _filters sliced)
    /\ (forall key, _filters q2 !! key
                    = match name_patch "b" !! key with
                      | Some v => Some v
                      | None => match by_name !! key with
                                | Some v => Some v
                                | None => _filters sliced !! key
                                end
                      end)
    /\ heap w2 !! 0%nat = Some sliced
    /\ (exists q1, heap w2 !! 1%nat = Some q1 /\ _filters q1 = by_name ∪ _filters sliced).
Proof.
  exact (filters_accumulate (one sliced) 0 sliced 3 2 [] by_name (name_patch "b")
           eq_refl eq_refl eq_refl eq_refl).
Defined.

Lemma index_raises_at_the_fetch_witness :
  exists c,
    Query.__getitem__ 0 (KInt 3) (one fresh)
    = (Raise (AttributeError "'ModelIterable' object has no attribute '_resource'"),
       {| heap := heap (one fresh) ++ [c]; calls := calls (one fresh) |})
    /\ _offset c = Some 3 /\ _limit c = Some 1 /\ _result_cache c = None
    /\ _filters c = _filters fresh /\ _excludes c = _excludes fresh.
Proof.
  apply (index_raises_at_the_fetch (one fresh) 0 fresh [] 3); try reflexivity; lia.
Defined.

Lemma get_raises_at_the_fetch_witness :
  exists c,
    Query.get 0 by_name (one sliced)
    = (Raise (AttributeError "'ModelIterable' object has no attribute '_resource'"),
       {| heap := heap (one sliced) ++ [c]; calls := calls (one sliced) |})
    /\ _filters c = by_name ∪ _filters sliced
    /\ heap (Query.get 0 by_name (one sliced)).2 !! 0%nat = Some sliced.
Proof.
  exact (get_raises_at_the_fetch (one sliced) 0 sliced 3 2 [] by_name
           eq_refl eq_refl eq_refl eq_refl).
Defined.

Lemma bulk_create_calls_at_most_once_witness :
  Manager.bulk_create (PyObject0 := brittle_object) manager (Manager.AList [a; hollow])
    empty_world
  = (Raise (ExternalError "nothing to serialise"), Manager.AList [a; hollow], empty_world).
Proof.
  apply (proj2 (proj2 (bulk_create_calls_at_most_once (PyObject0 := brittle_object)
                         manager (Manager.AList [a; hollow]) empty_world))
           [a; hollow] (ExternalError "nothing to serialise") eq_refl).
  - repeat constructor.
  - reflexivity.
Defined.

Lemma bulk_update_stops_at_first_missing_record_witness :
  Manager.bulk_update (PyObject0 := job_object) partial_manager ([a] ++ b :: []) ["name"]
    empty_world
  = (Raise (KeyError (VInt 2)), [job_of updated_a] ++ b :: [],
     {| heap := [];
        calls := [CallBulkUpdatePatch [name_patch "a"; name_patch "b"]] |}).
Proof.
  apply (bulk_update_stops_at_first_missing_record (PyObject0 := job_object)
           partial_manager ["name"] empty_world [a] b [] [job_of updated_a]
           {[VInt 1 := updated_a]} (VInt 2)).
  - reflexivity.
  - repeat constructor. exists (VInt 1), updated_a. repeat split; reflexivity.
  - reflexivity.
  - reflexivity.
Defined.

Lemma bulk_update_missing_field_sends_nothing_witness :
  exists d key,
    d ∈ [job_attrs a; job_attrs b] /\ key ∈ ["name"; "priority"] /\ d !! key = None
    /\ Manager.bulk_update (PyObject0 := job_object) manager [a; b] ["name"; "priority"]
         empty_world
       = (Raise (KeyError (VStr key)), [a; b], empty_world).
Proof.
  apply (bulk_update_missing_field_sends_nothing (PyObject0 := job_object) manager [a; b]
           ["name"; "priority"] empty_world [job_attrs a; job_attrs b] eq_refl).
  exists (job_attrs b), "priority". split; [|split].
  - apply list_elem_of_further, list_elem_of_here.
  - apply list_elem_of_further, list_elem_of_here.
  - reflexivity.
Defined.

Lemma response_map_last_duplicate_wins_witness :
  update_response_map !! VInt 1 = Some updated_a.
Proof.
  apply (response_map_last_duplicate_wins "pk" [record 1 "stale" "READY"] updated_a
           [updated_b] update_response_map (VInt 1)).
  - reflexivity.
  - reflexivity.
  - repeat constructor. discriminate.
Defined.
